(** * Netlink attributes (libnl/attr.py) and the generic netlink controller
      (libnl/genl/ctrl.py): a shallow embedding and its properties.

    Python integers are unbounded, so they are [Z]; a [dict] is a [gmap];
    a function that can raise is a function into [pyres]; the debug log and
    the objects that the code mutates in place (the attribute table, the
    message payload list, the family descriptor) are passed in and handed
    back explicitly. Byte strings are Python 3 [bytes]: indexing one yields
    an integer. *)

From Stdlib Require Import ZArith List Bool Lia Strings.Byte.
From stdpp Require Import base tactics option list gmap.

Local Open Scope Z_scope.

(** ** Python results *)

Inductive exn : Type :=
  | KeyError
  | IndexError
  | TypeError
  | ValueError
  | AttributeError
  | BUG
  | NotImplementedError.

Inductive pyres (A : Type) : Type :=
  | Ret (a : A)
  | Raise (e : exn).

Arguments Ret {A} a.
Arguments Raise {A} e.

(** Sequencing: an exception ends the computation. With the instances
    below, [x ← r; k] runs [r] and, unless it raised, goes on with [k]. *)
#[global] Instance pyres_ret : MRet pyres := fun A a => Ret a.
#[global] Instance pyres_bind : MBind pyres := fun A B k r =>
  match r with
  | Ret a => k a
  | Raise e => Raise e
  end.

(** ** Constants *)

(** libnl/attr.py, lines 19-28. *)
Definition NLA_UNSPEC : Z := 0.
Definition NLA_U8 : Z := 1.
Definition NLA_U16 : Z := 2.
Definition NLA_U32 : Z := 3.
Definition NLA_U64 : Z := 4.
Definition NLA_STRING : Z := 5.
Definition NLA_FLAG : Z := 6.
Definition NLA_MSECS : Z := 7.
Definition NLA_NESTED : Z := 8.
Definition NLA_TYPE_MAX : Z := NLA_NESTED.

(** Modelled from the spec: libnl/linux_private/netlink.py is not among the
    sources. The attribute header is a 16-bit total length followed by a
    16-bit type field, four bytes in all; records are padded to the next
    4-byte boundary; the two high bits of the type field are flags and the
    type code is what is left once they are masked off. *)
Definition NLA_HDRLEN : Z := 4.
Definition NLA_ALIGNTO : Z := 4.
Definition NLA_ALIGN (len : Z) : Z :=
  Z.land (len + NLA_ALIGNTO - 1) (Z.lnot (NLA_ALIGNTO - 1)).
Definition NLA_F_FLAGS : Z := Z.lor (Z.shiftl 1 15) (Z.shiftl 1 14).
Definition NLA_TYPE_MASK : Z := Z.lnot NLA_F_FLAGS.

(** Modelled from the spec: libnl/errno_.py is not among the sources. The
    error kinds RangeError, InvalidError and ObjectNotFoundError of the
    specification are libnl's codes NLE_RANGE, NLE_INVAL and
    NLE_OBJ_NOTFOUND; a function reports one by returning its negation. *)
Definition NLE_INVAL : Z := 7.
Definition NLE_OBJ_NOTFOUND : Z := 12.
Definition NLE_RANGE : Z := 14.

(** ** Data *)

(** The widths of the ctypes integers the codec uses. *)
Inductive cwidth : Type := W8 | W16 | W32 | W64.

Definition cbits (w : cwidth) : Z :=
  match w with W8 => 8 | W16 => 16 | W32 => 32 | W64 => 64 end.

(** [ctypes.sizeof] of the integer type. *)
Definition csizeof (w : cwidth) : Z :=
  match w with W8 => 1 | W16 => 2 | W32 => 4 | W64 => 8 end.

Definition cwidth_eqb (w1 w2 : cwidth) : bool :=
  match w1, w2 with
  | W8, W8 | W16, W16 | W32, W32 | W64, W64 => true
  | _, _ => false
  end.

(** What [nla_put] is handed as [data] and an attribute keeps as its
    payload: [None], a [bytes] string, or a ctypes unsigned integer. *)
Inductive payload_t : Type :=
  | PNone
  | PBytes (bs : list byte)
  | PCUInt (w : cwidth) (v : Z).

Module nlattr.
Record t : Type := mk {
  nla_len : Z;        (* total length, header and payload *)
  nla_type : Z;       (* type code and the two flag bits *)
  payload : payload_t
}.
End nlattr.
Abbreviation nlattr := nlattr.t.

(** [ctypes.sizeof(data)], with the [len(data)] fallback of [nla_put]. *)
Definition payload_size (p : payload_t) : Z :=
  match p with
  | PNone => 0
  | PBytes bs => Z.of_nat (length bs)
  | PCUInt w _ => csizeof w
  end.

(** Modelled from the spec: the class [nlattr] is declared in
    libnl/linux_private/netlink.py, which is not among the sources. The
    constructor call [nlattr(nla_type=attrtype, payload=data)] fills the
    header from the type and the payload length: the total length covers the
    header and the payload, and no padding is stored. *)
Definition new_nlattr (attrtype : Z) (data : payload_t) : nlattr :=
  nlattr.mk (NLA_HDRLEN + payload_size data) attrtype data.

(** Modelled from the spec: the [ctypes.sizeof] of the attribute that
    [nla_ok] compares with is the size of the attribute header. *)
Definition sizeof_nlattr : Z := NLA_HDRLEN.

(** An element of a message's payload list: an attribute, or some other
    object (a protocol header, say), which [isinstance(a, nlattr)] rejects. *)
Inductive pyobj : Type :=
  | ONlattr (a : nlattr)
  | OOther.

(** The debug records the two logging calls of attr.py write. *)
Inductive log_event : Type :=
  | LogWrote (attrtype : Z) (datalen : Z)
  | LogDuplicate (type_ : Z).

(** ** Accessors (attr.py, lines 55-128) *)

Definition nla_type (nla : nlattr) : Z :=
  Z.land (nlattr.nla_type nla) NLA_TYPE_MASK.

Definition nla_data (nla : nlattr) : payload_t := nlattr.payload nla.

Definition nla_len (nla : nlattr) : Z := nlattr.nla_len nla - NLA_HDRLEN.

Definition nla_ok (nla : nlattr) (remaining : Z) : bool :=
  (remaining >=? sizeof_nlattr)
  && ((sizeof_nlattr <=? nlattr.nla_len nla) && (nlattr.nla_len nla <=? remaining)).

(** [nla_next] moves a ctypes pointer and decrements [remaining.value]; the
    counter is the part that has a meaning here. *)
Definition nla_next (nla : nlattr) (remaining : Z) : Z :=
  remaining - NLA_ALIGN (nlattr.nla_len nla).

(** ** Iteration (attr.py, lines 217-227) *)

(** The generator [(a for a in head if isinstance(a, nlattr))], as the list
    of what it yields. *)
Fixpoint nla_for_each_attr (head : list pyobj) : list nlattr :=
  match head with
  | [] => []
  | ONlattr a :: rest => a :: nla_for_each_attr rest
  | OOther :: rest => nla_for_each_attr rest
  end.

(** The iteration as the specification words it, for comparison: walk the
    records with the count of bytes left, yield a record only once [nla_ok]
    has accepted it, move on with [nla_next], and stop at the first record
    [nla_ok] rejects. *)
Fixpoint iterate_ok_next (records : list nlattr) (remaining : Z) : list nlattr :=
  match records with
  | [] => []
  | a :: rest =>
      if nla_ok a remaining
      then a :: iterate_ok_next rest (nla_next a remaining)
      else []
  end.

(** The error kinds the specification names. *)
Inductive nl_error : Type := RangeError | InvalidError | ObjectNotFoundError.

(** The payload length as the specification words it, for comparison:
    total length minus header size, RangeError when that is negative. *)
Definition length_of_spec (nla : nlattr) : nl_error + Z :=
  if nlattr.nla_len nla - NLA_HDRLEN <? 0
  then inl RangeError
  else inr (nlattr.nla_len nla - NLA_HDRLEN).

(** ** Python primitives the codec relies on *)

(** [d[k]] on a dict. *)
Definition dict_getitem {V : Type} (d : gmap Z V) (k : Z) : pyres V :=
  match d !! k with
  | Some v => Ret v
  | None => Raise KeyError
  end.

(** [bs[i]] on a [bytes] string: a negative index counts from the end, an
    index outside the string raises IndexError. *)
Definition bytes_getitem (bs : list byte) (i : Z) : pyres byte :=
  let n := Z.of_nat (length bs) in
  let j := if i <? 0 then i + n else i in
  if (0 <=? j) && (j <? n)
  then match bs !! Z.to_nat j with
       | Some b => Ret b
       | None => Raise IndexError
       end
  else Raise IndexError.

(** [data[i]] on a payload: only a byte string can be subscripted. *)
Definition payload_getitem (data : payload_t) (i : Z) : pyres byte :=
  match data with
  | PBytes bs => bytes_getitem bs i
  | PNone | PCUInt _ _ => Raise TypeError
  end.

(** [not data]: [None], the empty string and a ctypes zero are false. *)
Definition payload_not (data : payload_t) : bool :=
  match data with
  | PNone => true
  | PBytes bs => match bs with [] => true | _ :: _ => false end
  | PCUInt _ v => v =? 0
  end.

(** [bs.endswith(b'\0')]. *)
Definition endswith_nul (bs : list byte) : bool :=
  match last bs with
  | Some b => Byte.eqb b x00
  | None => false
  end.

Fixpoint lstrip_byte (c : byte) (bs : list byte) : list byte :=
  match bs with
  | [] => []
  | b :: rest => if Byte.eqb b c then lstrip_byte c rest else bs
  end.

(** [bs.rstrip(c)] for a single byte [c]: the longest suffix made of [c]
    goes. *)
Definition rstrip_byte (c : byte) (bs : list byte) : list byte :=
  reverse (lstrip_byte c (reverse bs)).

(** ** Validation policy (attr.py, lines 31-178) *)

Module nla_policy.
Record t : Type := mk {
  type_ : Z;
  minlen : Z;
  maxlen : Z
}.
End nla_policy.
Abbreviation nla_policy := nla_policy.t.

(** The dict comprehension over [range(NLA_TYPE_MAX + 1)], then [update]. *)
Definition nla_attr_minlen : gmap Z Z :=
  list_to_map
    [ (NLA_U8, csizeof W8); (NLA_U16, csizeof W16); (NLA_U32, csizeof W32);
      (NLA_U64, csizeof W64); (NLA_STRING, 1); (NLA_FLAG, 0) ]
  ∪ list_to_map ((λ i, (i, 0)) <$> seqZ 0 (NLA_TYPE_MAX + 1)).

Definition validate_nla (nla : nlattr) (maxtype : Z) (policy : gmap Z nla_policy)
    : pyres Z :=
  let type_ := nla_type nla in
  if (type_ <? 0) || (type_ >? maxtype) then Ret 0
  else
    pt ← dict_getitem policy type_;
    if nla_policy.type_ pt >? NLA_TYPE_MAX then Raise BUG
    else
      minlen ←
        (if negb (nla_policy.minlen pt =? 0) then Ret (nla_policy.minlen pt)
         else if negb (nla_policy.type_ pt =? NLA_UNSPEC)
              then dict_getitem nla_attr_minlen (nla_policy.type_ pt)
              else Ret 0);
      if nla_len nla <? minlen then Ret (- NLE_RANGE)
      else if negb (nla_policy.maxlen pt =? 0) && (nla_len nla >? nla_policy.maxlen pt)
      then Ret (- NLE_RANGE)
      else if nla_policy.type_ pt =? NLA_STRING
      then
        b ← payload_getitem (nla_data nla) (nla_len nla - 1);
        if negb (Byte.eqb b x00) then Ret (- NLE_INVAL) else Ret 0
      else Ret 0.

(** ** Building the attribute table (attr.py, lines 181-214) *)

(** [if policy:] is false for [None] and for an empty dict. *)
Definition policy_given (policy : option (gmap Z nla_policy)) : option (gmap Z nla_policy) :=
  match policy with
  | Some p => if decide (p = ∅) then None else Some p
  | None => None
  end.

(** What a call leaves behind: the value it returned or the exception it
    raised, the caller's table [tb] as the call left it, and the debug
    records written. *)
Record parsed : Type := mk_parsed {
  p_result : pyres Z;
  p_tb : gmap Z nlattr;
  p_log : list log_event
}.

(** The [for] loop of [nla_parse] over the attributes still to come. *)
Fixpoint nla_parse_loop (tb : gmap Z nlattr) (log : list log_event) (maxtype : Z)
    (attrs : list nlattr) (policy : option (gmap Z nla_policy)) : parsed :=
  match attrs with
  | [] => mk_parsed (Ret 0) tb log
  | nla :: rest =>
      let type_ := nla_type nla in
      if type_ >? maxtype then nla_parse_loop tb log maxtype rest policy
      else
        let checked :=
          match policy_given policy with
          | Some p => validate_nla nla maxtype p
          | None => Ret 0
          end in
        match checked with
        | Raise e => mk_parsed (Raise e) tb log
        | Ret err =>
            if err <? 0 then mk_parsed (Ret err) tb log
            else
              let log' :=
                match tb !! type_ with
                | Some _ => log ++ [LogDuplicate type_]
                | None => log
                end in
              nla_parse_loop (<[type_ := nla]> tb) log' maxtype rest policy
        end
  end.

Definition nla_parse (tb : gmap Z nlattr) (maxtype : Z) (head : list pyobj)
    (policy : option (gmap Z nla_policy)) : parsed :=
  nla_parse_loop tb [] maxtype (nla_for_each_attr head) policy.

(** ** Writing attributes (attr.py, lines 250-420) *)

Module nlmsghdr.
Record t : Type := mk { payload : list pyobj }.
End nlmsghdr.
Abbreviation nlmsghdr := nlmsghdr.t.

Record nl_msg : Type := mk_nl_msg { nm_nlh : nlmsghdr }.

(** [msg.nm_nlh.payload.append(obj)]. *)
Definition payload_append (msg : nl_msg) (obj : pyobj) : nl_msg :=
  mk_nl_msg (nlmsghdr.mk (nlmsghdr.payload (nm_nlh msg) ++ [obj])).

(** [nla_put] returns 0 in every case; the message with the new attribute
    appended and the debug records written come back with it. *)
Definition nla_put (msg : nl_msg) (attrtype : Z) (data : payload_t)
    : Z * nl_msg * list log_event :=
  let nla := new_nlattr attrtype data in
  let msg' := payload_append msg (ONlattr nla) in
  if payload_not data then (0, msg', [])
  else
    let datalen := payload_size data in
    (0, msg', [LogWrote (nlattr.nla_type nla) datalen]).

(** A [value] argument of the integer encoders: a Python [int] or a ctypes
    unsigned integer. *)
Inductive pyval : Type :=
  | VInt (z : Z)
  | VCUInt (w : cwidth) (v : Z).

(** [value if isinstance(value, c_uintN) else c_uintN(value)]: an [int] is
    stored modulo [2^N]; a ctypes integer of another class is no argument
    for the constructor. *)
Definition as_c_uint (w : cwidth) (value : pyval) : pyres payload_t :=
  match value with
  | VCUInt w' v => if cwidth_eqb w' w then Ret (PCUInt w v) else Raise TypeError
  | VInt z => Ret (PCUInt w (z mod 2 ^ cbits w))
  end.

Definition nla_put_uint (w : cwidth) (msg : nl_msg) (attrtype : Z) (value : pyval)
    : pyres (Z * nl_msg * list log_event) :=
  data ← as_c_uint w value;
  Ret (nla_put msg attrtype data).

Definition nla_put_u8 := nla_put_uint W8.
Definition nla_put_u16 := nla_put_uint W16.
Definition nla_put_u32 := nla_put_uint W32.
Definition nla_put_u64 := nla_put_uint W64.

(** [c_uintN.from_buffer(payload).value]: [None] and [bytes] offer no
    writable buffer; a ctypes integer does, and one at least as wide is read
    from its first byte on, which on a little-endian host is its value
    modulo [2^N]. *)
Definition c_uint_from_buffer (w : cwidth) (p : payload_t) : pyres Z :=
  match p with
  | PNone | PBytes _ => Raise TypeError
  | PCUInt w' v =>
      if csizeof w' <? csizeof w then Raise ValueError
      else Ret (v mod 2 ^ cbits w)
  end.

Definition nla_get_uint (w : cwidth) (nla : nlattr) : pyres Z :=
  match nlattr.payload nla with
  | PCUInt w' v =>
      if cwidth_eqb w' w then Ret v
      else c_uint_from_buffer w (nlattr.payload nla)
  | p => c_uint_from_buffer w p
  end.

Definition nla_get_u8 := nla_get_uint W8.
Definition nla_get_u16 := nla_get_uint W16.
Definition nla_get_u32 := nla_get_uint W32.
Definition nla_get_u64 := nla_get_uint W64.

Definition nla_put_string (msg : nl_msg) (attrtype : Z) (value : list byte)
    : Z * nl_msg * list log_event :=
  nla_put msg attrtype
    (PBytes (if endswith_nul value then value else value ++ [x00])).

(** [nla.payload.rstrip(b'\0')]: only a byte string has the method. *)
Definition nla_get_string (nla : nlattr) : pyres (list byte) :=
  match nlattr.payload nla with
  | PBytes bs => Ret (rstrip_byte x00 bs)
  | PNone | PCUInt _ _ => Raise AttributeError
  end.

(** ** The generic netlink controller (genl/ctrl.py) *)

(** Modelled from the spec: libnl/linux_private/genetlink.py and
    libnl/handlers.py are not among the sources. The control attributes are
    numbered as the kernel numbers them, FAMILY_ID first and MCAST_GROUPS
    last; a family name is bounded by a fixed name size; a handler answers
    Skip to keep the receive loop waiting and Stop to end it. *)
Definition CTRL_ATTR_UNSPEC : Z := 0.
Definition CTRL_ATTR_FAMILY_ID : Z := 1.
Definition CTRL_ATTR_FAMILY_NAME : Z := 2.
Definition CTRL_ATTR_VERSION : Z := 3.
Definition CTRL_ATTR_HDRSIZE : Z := 4.
Definition CTRL_ATTR_MAXATTR : Z := 5.
Definition CTRL_ATTR_OPS : Z := 6.
Definition CTRL_ATTR_MCAST_GROUPS : Z := 7.
Definition CTRL_ATTR_MAX : Z := CTRL_ATTR_MCAST_GROUPS.
Definition GENL_NAMSIZ : Z := 16.
Definition NL_OK : Z := 0.
Definition NL_SKIP : Z := 1.
Definition NL_STOP : Z := 2.

(** ctrl.py, lines 32-40. *)
Definition ctrl_policy : gmap Z nla_policy :=
  list_to_map
    [ (CTRL_ATTR_FAMILY_ID, nla_policy.mk NLA_U16 0 0);
      (CTRL_ATTR_FAMILY_NAME, nla_policy.mk NLA_STRING 0 GENL_NAMSIZ);
      (CTRL_ATTR_VERSION, nla_policy.mk NLA_U32 0 0);
      (CTRL_ATTR_HDRSIZE, nla_policy.mk NLA_U32 0 0);
      (CTRL_ATTR_MAXATTR, nla_policy.mk NLA_U32 0 0);
      (CTRL_ATTR_OPS, nla_policy.mk NLA_NESTED 0 0);
      (CTRL_ATTR_MCAST_GROUPS, nla_policy.mk NLA_NESTED 0 0) ].

(** Modelled from the spec: libnl/genl/family.py is not among the sources.
    A family descriptor has a name and a numeric id, 0 while unresolved; it
    is created empty and filled in as the reply is read. *)
Record genl_family : Type := mk_genl_family {
  f_id : Z;
  f_name : list byte
}.

Definition genl_family_alloc : genl_family := mk_genl_family 0 [].
Definition genl_family_get_id (family : genl_family) : Z := f_id family.

(** Code that reads and updates the descriptor it was bound to, and may
    raise. *)
Definition handler (A : Type) : Type := genl_family -> pyres A * genl_family.

#[global] Instance handler_ret : MRet handler := fun A a family => (Ret a, family).
#[global] Instance handler_bind : MBind handler := fun A B k h family =>
  match h family with
  | (Ret a, family') => k a family'
  | (Raise e, family') => (Raise e, family')
  end.

Definition lift {A : Type} (r : pyres A) : handler A := fun family => (r, family).

Definition genl_family_set_id (id : Z) : handler unit :=
  fun family => (Ret tt, mk_genl_family id (f_name family)).
Definition genl_family_set_name (name : list byte) : handler unit :=
  fun family => (Ret tt, mk_genl_family (f_id family) name).

(** Modelled from the spec: the class [nlattr] is not among the sources.
    The truth value of an attribute is that it is there (this is what
    [nla_get_flag] returns), whatever it holds. *)
Definition nlattr_bool (nla : nlattr) : bool := true.

(** Modelled from the spec: libnl/msg.py and libnl/genl/genl.py are not
    among the sources. [nlmsg_hdr] is the header of the message;
    [genlmsg_parse] parses the attribute stream of the message with
    [nla_parse]; [nlmsg_alloc] is an empty message and [genlmsg_put] adds
    the generic netlink header to it. *)
Definition nlmsg_hdr (msg : nl_msg) : nlmsghdr := nm_nlh msg.
Definition genlmsg_parse (nlh : nlmsghdr) (hdrlen : Z) (tb : gmap Z nlattr)
    (maxtype : Z) (policy : option (gmap Z nla_policy)) : parsed :=
  nla_parse tb maxtype (nlmsghdr.payload nlh) policy.
Definition nlmsg_alloc : nl_msg := mk_nl_msg (nlmsghdr.mk []).
Definition genlmsg_put (msg : nl_msg) : nl_msg := payload_append msg OOther.

(** ctrl.py, lines 56-66. *)
Definition parse_mcast_grps (grp_attr : nlattr) : handler Z :=
  lift (Raise NotImplementedError).

(** ctrl.py, lines 83-104. The table is a fresh dict. *)
Definition probe_response (msg : nl_msg) : handler Z :=
  let nlh := nlmsg_hdr msg in
  let out := genlmsg_parse nlh 0 ∅ CTRL_ATTR_MAX (Some ctrl_policy) in
  rc ← lift (p_result out);
  if negb (rc =? 0) then mret NL_SKIP
  else
    let tb := p_tb out in
    a ← lift (dict_getitem tb CTRL_ATTR_FAMILY_ID);
    _ ← (if nlattr_bool a
         then v ← lift (nla_get_u16 a); genl_family_set_id v
         else mret tt);
    g ← lift (dict_getitem tb CTRL_ATTR_MCAST_GROUPS);
    failed ← (if nlattr_bool g
              then r ← parse_mcast_grps g; mret (r <? 0)
              else mret false);
    if failed : bool then mret NL_SKIP else mret NL_STOP.

(** Modelled from the spec: libnl/nl.py and libnl/socket_.py are not among
    the sources. The transport sends a message, receives by calling the
    handler registered for valid messages on each reply until the handler
    answers Stop, and waits for the acknowledgment; each of the three
    reports a negative number when it fails. A mock transport is given by
    what it answers. *)
Record nl_sock : Type := mk_nl_sock {
  sk_send : nl_msg -> Z;
  sk_replies : list nl_msg;
  sk_recv : Z;
  sk_ack : Z
}.

Definition nl_send_auto (sk : nl_sock) (msg : nl_msg) : Z := sk_send sk msg.
Definition wait_for_ack (sk : nl_sock) : Z := sk_ack sk.

Fixpoint receive_until (cb : nl_msg -> handler Z) (replies : list nl_msg) (rc : Z)
    : handler Z :=
  match replies with
  | [] => mret rc
  | msg :: rest =>
      answer ← cb msg;
      if answer =? NL_STOP then mret 0 else receive_until cb rest rc
  end.

Definition nl_recvmsgs (sk : nl_sock) (cb : nl_msg -> handler Z) : handler Z :=
  receive_until cb (sk_replies sk) (sk_recv sk).

(** ctrl.py, lines 107-143. The function returns the descriptor or [None];
    [genl_family_alloc] always yields an object, so the first [return None]
    is never taken. *)
Definition genl_ctrl_probe_by_name (sk : nl_sock) (name : list byte)
    : pyres (option genl_family) :=
  let ret := genl_family_alloc in
  let ret := (genl_family_set_name name ret).2 in
  let msg := nlmsg_alloc in
  let msg := genlmsg_put msg in
  let msg := (nla_put_string msg CTRL_ATTR_FAMILY_NAME name).1.2 in
  if nl_send_auto sk msg <? 0 then Ret None
  else
    match nl_recvmsgs sk probe_response ret with
    | (Raise e, _) => Raise e
    | (Ret rc, ret) =>
        if rc <? 0 then Ret None
        else if wait_for_ack sk <? 0 then Ret None
        else if negb (genl_family_get_id ret =? 0) then Ret (Some ret)
        else Ret None
    end.

(** ctrl.py, lines 146-164. *)
Definition genl_ctrl_resolve (sk : nl_sock) (name : list byte) : pyres Z :=
  family ← genl_ctrl_probe_by_name sk name;
  match family with
  | None => Ret (- NLE_OBJ_NOTFOUND)
  | Some family => Ret (genl_family_get_id family)
  end.

(** ** Notions the statements below use *)

(** [isinstance(obj, nlattr)]. *)
Definition isinstance_nlattr (obj : pyobj) : bool :=
  match obj with
  | ONlattr _ => true
  | OOther => false
  end.

(** The attributes of a stream that carry type code [t], in stream order. *)
Definition of_type (t : Z) (attrs : list nlattr) : list nlattr :=
  List.filter (λ nla, nla_type nla =? t) attrs.

(** How many times the log reports a second attribute of type [t]. *)
Definition duplicates_logged (t : Z) (log : list log_event) : nat :=
  length (List.filter
            (λ e, match e with LogDuplicate t' => t' =? t | LogWrote _ _ => false end)
            log).

(** The minimum the specification words, for comparison: the explicit
    minimum of the policy entry if it is not zero, else the default of the
    declared type (u8 1, u16 2, u32 4, u64 8, string 1, flag 0, others 0). *)
Definition default_minlen (t : Z) : Z :=
  if t =? NLA_U8 then 1
  else if t =? NLA_U16 then 2
  else if t =? NLA_U32 then 4
  else if t =? NLA_U64 then 8
  else if t =? NLA_STRING then 1
  else 0.

Definition effective_minlen (pt : nla_policy) : Z :=
  if nla_policy.minlen pt =? 0 then default_minlen (nla_policy.type_ pt)
  else nla_policy.minlen pt.

(** ** The rest of attr.py *)

(** attr.py, lines 230-247: the first attribute of the wanted type, or
    [None]. *)
Fixpoint nla_find_loop (attrs : list nlattr) (attrtype : Z) : option nlattr :=
  match attrs with
  | [] => None
  | nla :: rest =>
      if nla_type nla =? attrtype then Some nla
      else nla_find_loop rest attrtype
  end.

Definition nla_find (attrs : list pyobj) (attrtype : Z) : option nlattr :=
  nla_find_loop (nla_for_each_attr attrs) attrtype.

(** attr.py, lines 423-444. [nla_get_flag] is [bool(nla)], and what it is
    handed may be [None] (what [nla_find] returns when nothing matches). *)
Definition nla_put_flag (msg : nl_msg) (attrtype : Z)
    : Z * nl_msg * list log_event :=
  nla_put msg attrtype PNone.

Definition nla_get_flag (nla : option nlattr) : bool :=
  match nla with
  | Some a => nlattr_bool a
  | None => false
  end.

(** A [value] argument of [nla_put_msecs]: whatever the integer encoders
    take, or a [c_ulong] on a platform where that is a class of its own
    (where it is [c_uint64] itself it is the first case). *)
Inductive msecs_value : Type :=
  | MsecsVal (value : pyval)
  | MsecsULong (v : Z).

(** attr.py, lines 447-475. The value is made a [c_uint64] first and then
    handed to [nla_put_u64]. *)
Definition nla_put_msecs (msg : nl_msg) (attrtype : Z) (value : msecs_value)
    : pyres (Z * nl_msg * list log_event) :=
  match value with
  | MsecsVal (VCUInt W64 v) => nla_put_u64 msg attrtype (VCUInt W64 v)
  | MsecsULong v => nla_put_u64 msg attrtype (VCUInt W64 (v mod 2 ^ cbits W64))
  | MsecsVal (VInt z) => nla_put_u64 msg attrtype (VCUInt W64 (z mod 2 ^ cbits W64))
  | MsecsVal (VCUInt _ _) => Raise TypeError
  end.

Definition nla_get_msecs (nla : nlattr) : pyres Z := nla_get_u64 nla.

(** The policy type that goes with an integer width. *)
Definition nla_uint_type (w : cwidth) : Z :=
  match w with
  | W8 => NLA_U8
  | W16 => NLA_U16
  | W32 => NLA_U32
  | W64 => NLA_U64
  end.

(** The attributes of a message. *)
Definition msg_attrs (msg : nl_msg) : list nlattr :=
  nla_for_each_attr (nlmsghdr.payload (nm_nlh msg)).

(** * Properties *)

(** ** Accessors *)

Lemma nla_type_nonneg (nla : nlattr) :
  0 <= nlattr.nla_type nla -> 0 <= nla_type nla.
Proof. intros H. unfold nla_type. apply Z.land_nonneg. by left. Qed.


(** C7, as the code has it. [nla_len] is the declared total length minus the
    header size for every record; it never fails, it is negative exactly
    when the declared total length is below the header size, and it agrees
    with the specification's [length_of] exactly on the other records. *)
Theorem nla_len_is_difference (nla : nlattr) :
  nla_len nla = nlattr.nla_len nla - NLA_HDRLEN
  /\ (nla_len nla < 0 <-> nlattr.nla_len nla < NLA_HDRLEN)
  /\ (length_of_spec nla = inr (nla_len nla) <-> NLA_HDRLEN <= nlattr.nla_len nla).
Proof.
  unfold nla_len, length_of_spec. split_and!; [done | lia |].
  destruct (Z.ltb_spec (nlattr.nla_len nla - NLA_HDRLEN) 0); split;
    (congruence || lia || done).
Qed.

(** C7, as the claim has it, fails: for a record that declares a total
    length of 0 the specification asks for RangeError, and [nla_len] returns
    the negative number -4. *)
Lemma nla_len_negative_counterexample :
  let nla := nlattr.mk 0 1 PNone in
  length_of_spec nla = inl RangeError /\ nla_len nla = -4
  /\ length_of_spec nla <> inr (nla_len nla).
Proof. vm_compute. split_and!; [done | done | discriminate]. Qed.

(** ** Iteration *)

Lemma nla_for_each_attr_app (h1 h2 : list pyobj) :
  nla_for_each_attr (h1 ++ h2) = nla_for_each_attr h1 ++ nla_for_each_attr h2.
Proof.
  induction h1 as [|[a|] h1 IH]; simpl; [done | by rewrite IH | done].
Qed.

Lemma iterate_ok_next_prefix (records : list nlattr) (remaining : Z) :
  iterate_ok_next records remaining `prefix_of` records.
Proof.
  revert remaining. induction records as [|a rest IH]; intros remaining; simpl.
  - done.
  - destruct (nla_ok a remaining).
    + by apply prefix_cons.
    + apply prefix_nil.
Qed.

(** C1, as the code has it. [nla_for_each_attr] yields, in order, exactly
    the elements of [head] that are attributes, the ones after a record
    that [nla_ok] would reject included; it looks at nothing but the
    elements of the list. What the iteration by ok and next of the
    specification yields is a prefix of it. *)
Theorem nla_for_each_attr_yields_every_attribute (head : list pyobj) :
  ONlattr <$> nla_for_each_attr head = List.filter isinstance_nlattr head
  /\ (forall h1 a h2, nla_for_each_attr (h1 ++ ONlattr a :: h2)
                      = nla_for_each_attr h1 ++ a :: nla_for_each_attr h2)
  /\ (forall remaining,
        iterate_ok_next (nla_for_each_attr head) remaining
          `prefix_of` nla_for_each_attr head).
Proof.
  split_and!.
  - induction head as [|[a|] head IH]; simpl; [done | by f_equal | done].
  - intros h1 a h2. by rewrite nla_for_each_attr_app.
  - intros remaining. apply iterate_ok_next_prefix.
Qed.

(** C1, as the claim has it, fails. A stream of 16 bytes holds a record of
    8 bytes and then a record that declares 12 bytes where 8 are left:
    [nla_ok] rejects the second record, the iteration by ok and next stops
    before it, and [nla_for_each_attr] yields it. *)
Lemma nla_for_each_attr_counterexample :
  let whole := nlattr.mk 8 1 (PBytes [x01; x02; x03; x04]) in
  let truncated := nlattr.mk 12 2 (PBytes [x05; x06; x07; x08]) in
  let head := [ONlattr whole; ONlattr truncated] in
  nla_ok whole 16 = true
  /\ nla_ok truncated (nla_next whole 16) = false
  /\ iterate_ok_next (nla_for_each_attr head) 16 = [whole]
  /\ nla_for_each_attr head = [whole; truncated].
Proof. vm_compute. done. Qed.

(** ** Validation *)

Lemma dict_getitem_Some {V : Type} (d : gmap Z V) (k : Z) (v : V) :
  d !! k = Some v -> dict_getitem d k = Ret v.
Proof. intros H. unfold dict_getitem. by rewrite H. Qed.

Lemma dict_getitem_None {V : Type} (d : gmap Z V) (k : Z) :
  d !! k = None -> dict_getitem d k = Raise KeyError.
Proof. intros H. unfold dict_getitem. by rewrite H. Qed.

Lemma nla_attr_minlen_default (t : Z) :
  0 <= t <= NLA_TYPE_MAX -> nla_attr_minlen !! t = Some (default_minlen t).
Proof.
  unfold NLA_TYPE_MAX, NLA_NESTED. intros Ht.
  assert (t = 0 \/ t = 1 \/ t = 2 \/ t = 3 \/ t = 4 \/ t = 5 \/ t = 6
          \/ t = 7 \/ t = 8) as Hcases by lia.
  destruct_or!; subst t; reflexivity.
Qed.

(** Once the type code is within [maxtype], the policy has an entry for it
    and the entry declares one of the types of the codec, what is left of
    [validate_nla] is the two length checks and the check of the string
    terminator. *)
Lemma validate_nla_checks (nla : nlattr) (maxtype : Z)
    (policy : gmap Z nla_policy) (pt : nla_policy) :
  0 <= nla_type nla <= maxtype ->
  policy !! nla_type nla = Some pt ->
  0 <= nla_policy.type_ pt <= NLA_TYPE_MAX ->
  validate_nla nla maxtype policy =
    if nla_len nla <? effective_minlen pt then Ret (- NLE_RANGE)
    else if negb (nla_policy.maxlen pt =? 0) && (nla_len nla >? nla_policy.maxlen pt)
    then Ret (- NLE_RANGE)
    else if nla_policy.type_ pt =? NLA_STRING
    then
      b ← payload_getitem (nla_data nla) (nla_len nla - 1);
      if negb (Byte.eqb b x00) then Ret (- NLE_INVAL) else Ret 0
    else Ret 0.
Proof.
  intros [Hlo Hhi] Hpt Hty. unfold validate_nla. cbv zeta.
  replace (nla_type nla <? 0) with false by (symmetry; apply Z.ltb_ge; lia).
  replace (nla_type nla >? maxtype) with false
    by (symmetry; rewrite Z.gtb_ltb; apply Z.ltb_ge; lia).
  cbn [orb]. rewrite (dict_getitem_Some _ _ _ Hpt). cbn [mbind pyres_bind].
  replace (nla_policy.type_ pt >? NLA_TYPE_MAX) with false
    by (symmetry; rewrite Z.gtb_ltb; apply Z.ltb_ge; lia).
  unfold effective_minlen.
  destruct (nla_policy.minlen pt =? 0) eqn:Hmin; cbn [negb].
  - destruct (nla_policy.type_ pt =? NLA_UNSPEC) eqn:Hunspec; cbn [negb].
    + apply Z.eqb_eq in Hunspec. rewrite Hunspec. reflexivity.
    + rewrite (dict_getitem_Some _ _ _ (nla_attr_minlen_default _ Hty)).
      reflexivity.
  - reflexivity.
Qed.

(** C5. For a record whose type code is at most [maxtype] and the policy
    entry [pt] of that type, [validate_nla] returns the range error exactly
    when the payload length is below the effective minimum (the explicit
    minimum of the entry if it is not zero, else the default of the declared
    type) or above a maximum that is set. The type field of the record is
    unsigned, and the entry declares one of the types of the codec. *)
Theorem validate_nla_range_iff (nla : nlattr) (maxtype : Z)
    (policy : gmap Z nla_policy) (pt : nla_policy) :
  0 <= nlattr.nla_type nla ->
  nla_type nla <= maxtype ->
  policy !! nla_type nla = Some pt ->
  0 <= nla_policy.type_ pt <= NLA_TYPE_MAX ->
  validate_nla nla maxtype policy = Ret (- NLE_RANGE) <->
  nla_len nla < effective_minlen pt
  \/ (nla_policy.maxlen pt <> 0 /\ nla_len nla > nla_policy.maxlen pt).
Proof.
  intros Hfield Hmax Hpt Hty.
  rewrite (validate_nla_checks nla maxtype policy pt); auto using nla_type_nonneg.
  destruct (Z.ltb_spec (nla_len nla) (effective_minlen pt)) as [Hlt|Hge].
  { split; auto. }
  destruct (Z.eqb_spec (nla_policy.maxlen pt) 0) as [Hz|Hnz]; cbn [negb andb].
  - transitivity False; [|lia].
    destruct (nla_policy.type_ pt =? NLA_STRING); [|done].
    destruct (payload_getitem _ _) as [b|e]; cbn; [|done].
    destruct (negb _); done.
  - rewrite Z.gtb_ltb.
    destruct (Z.ltb_spec (nla_policy.maxlen pt) (nla_len nla)) as [Hgt|Hle].
    { split; [intros _; right; lia | done]. }
    transitivity False; [|lia].
    destruct (nla_policy.type_ pt =? NLA_STRING); [|done].
    destruct (payload_getitem _ _) as [b|e]; cbn; [|done].
    destruct (negb _); done.
Qed.

(** The example of C5: an attribute of a type the control policy declares
    u32 (no explicit minimum, so the minimum is 4) with a payload of two
    bytes fails with the range error. *)
Lemma validate_nla_range_witness :
  validate_nla (new_nlattr CTRL_ATTR_VERSION (PBytes [x01; x00]))
    CTRL_ATTR_MAX ctrl_policy = Ret (- NLE_RANGE).
Proof.
  apply (validate_nla_range_iff
           (new_nlattr CTRL_ATTR_VERSION (PBytes [x01; x00]))
           CTRL_ATTR_MAX ctrl_policy (nla_policy.mk NLA_U32 0 0)).
  - vm_compute. discriminate.
  - vm_compute. discriminate.
  - reflexivity.
  - vm_compute. split; discriminate.
  - left. vm_compute. reflexivity.
Defined.

Lemma bytes_getitem_last (bs : list byte) :
  bs <> [] ->
  bytes_getitem bs (Z.of_nat (length bs) - 1)
  = match last bs with Some b => Ret b | None => Raise IndexError end.
Proof.
  intros Hne. unfold bytes_getitem.
  assert (0 < length bs)%nat by (destruct bs; [done | simpl; lia]).
  replace (Z.of_nat (length bs) - 1 <? 0) with false
    by (symmetry; apply Z.ltb_ge; lia).
  replace ((0 <=? Z.of_nat (length bs) - 1)
           && (Z.of_nat (length bs) - 1 <? Z.of_nat (length bs))) with true
    by (symmetry; apply andb_true_iff; split;
        [apply Z.leb_le | apply Z.ltb_lt]; lia).
  rewrite last_lookup.
  replace (Z.to_nat (Z.of_nat (length bs) - 1)) with (pred (length bs)) by lia.
  reflexivity.
Qed.

(** C6. For a record whose type code is at most [maxtype], validated under
    an entry that declares a string, with a payload length within the
    bounds of the entry, [validate_nla] returns the invalid-value error
    exactly when the last byte of the payload is not NUL. The payload is a
    byte string of the length the record declares, and the fields are
    unsigned. *)
Theorem validate_nla_string_iff (nla : nlattr) (maxtype : Z)
    (policy : gmap Z nla_policy) (pt : nla_policy) (bs : list byte) :
  0 <= nlattr.nla_type nla ->
  nla_type nla <= maxtype ->
  policy !! nla_type nla = Some pt ->
  nla_policy.type_ pt = NLA_STRING ->
  0 <= nla_policy.minlen pt ->
  effective_minlen pt <= nla_len nla ->
  (nla_policy.maxlen pt = 0 \/ nla_len nla <= nla_policy.maxlen pt) ->
  nlattr.payload nla = PBytes bs ->
  nla_len nla = Z.of_nat (length bs) ->
  validate_nla nla maxtype policy = Ret (- NLE_INVAL) <-> last bs <> Some x00.
Proof.
  intros Hfield Hmax Hpt Hstr Hminlen Hmin Hbound Hpayload Hlen.
  rewrite (validate_nla_checks nla maxtype policy pt);
    auto using nla_type_nonneg; [|by rewrite Hstr].
  replace (nla_len nla <? effective_minlen pt) with false
    by (symmetry; apply Z.ltb_ge; lia).
  replace (negb (nla_policy.maxlen pt =? 0) && (nla_len nla >? nla_policy.maxlen pt))
    with false.
  2:{ symmetry. apply andb_false_iff. destruct Hbound as [Hz|Hle].
      - left. rewrite Hz. reflexivity.
      - right. rewrite Z.gtb_ltb. apply Z.ltb_ge. lia. }
  rewrite Hstr, Z.eqb_refl. unfold nla_data. rewrite Hpayload, Hlen.
  cbn [payload_getitem].
  assert (1 <= effective_minlen pt) as Hone.
  { unfold effective_minlen.
    destruct (Z.eqb_spec (nla_policy.minlen pt) 0); [by rewrite Hstr | lia]. }
  assert (bs <> []) as Hne by (intros ->; simpl in Hlen; lia).
  rewrite (bytes_getitem_last bs Hne).
  destruct (last bs) as [b|] eqn:Hlast.
  - cbn. destruct (Byte.eqb b x00) eqn:Hb; cbn [negb].
    + apply Byte.byte_dec_bl in Hb. subst b. split; [discriminate | done].
    + split; [intros _ [= ->]; discriminate | done].
  - by apply last_None in Hlast.
Qed.

(** The example of C6: a family name without its terminator fails with the
    invalid-value error under the control policy. *)
Lemma validate_nla_string_witness :
  validate_nla (new_nlattr CTRL_ATTR_FAMILY_NAME (PBytes [x6e; x6c]))
    CTRL_ATTR_MAX ctrl_policy = Ret (- NLE_INVAL).
Proof.
  apply (validate_nla_string_iff
           (new_nlattr CTRL_ATTR_FAMILY_NAME (PBytes [x6e; x6c]))
           CTRL_ATTR_MAX ctrl_policy
           (nla_policy.mk NLA_STRING 0 GENL_NAMSIZ) [x6e; x6c]).
  - vm_compute. discriminate.
  - vm_compute. discriminate.
  - reflexivity.
  - reflexivity.
  - vm_compute. discriminate.
  - vm_compute. discriminate.
  - right. vm_compute. discriminate.
  - reflexivity.
  - reflexivity.
  - vm_compute. discriminate.
Defined.

(** ** Building the attribute table *)

Lemma of_type_cons (t : Z) (nla : nlattr) (attrs : list nlattr) :
  of_type t (nla :: attrs)
  = if nla_type nla =? t then nla :: of_type t attrs else of_type t attrs.
Proof. reflexivity. Qed.

Lemma duplicates_logged_snoc (t t' : Z) (log : list log_event) :
  duplicates_logged t (log ++ [LogDuplicate t'])
  = (duplicates_logged t log + if (t' =? t)%Z then 1 else 0)%nat.
Proof.
  unfold duplicates_logged. rewrite List.filter_app, length_app. simpl.
  by destruct (t' =? t).
Qed.

(** A loop that ran to its end on [l1] goes on with [l2] from the table and
    the log it had then. *)
Lemma nla_parse_loop_app (tb : gmap Z nlattr) (log : list log_event)
    (maxtype : Z) (l1 l2 : list nlattr) (policy : option (gmap Z nla_policy)) :
  p_result (nla_parse_loop tb log maxtype l1 policy) = Ret 0 ->
  nla_parse_loop tb log maxtype (l1 ++ l2) policy
  = nla_parse_loop (p_tb (nla_parse_loop tb log maxtype l1 policy))
      (p_log (nla_parse_loop tb log maxtype l1 policy)) maxtype l2 policy.
Proof.
  revert tb log. induction l1 as [|nla l1 IH]; intros tb log Hdone; [done|].
  cbn [nla_parse_loop app] in *.
  destruct (nla_type nla >? maxtype); [by apply IH|].
  destruct (match policy_given policy with
            | Some p => validate_nla nla maxtype p
            | None => Ret 0
            end) as [err|e]; [|done].
  destruct (err <? 0) eqn:Herr.
  - simpl in Hdone. injection Hdone as ->. done.
  - by apply IH.
Qed.

(** After a loop that ran to its end, the table holds under [t] the last
    attribute of type [t] of the stream, or what it held before if there is
    none. *)
Lemma nla_parse_loop_table (tb : gmap Z nlattr) (log : list log_event)
    (maxtype : Z) (attrs : list nlattr) (policy : option (gmap Z nla_policy))
    (t : Z) :
  p_result (nla_parse_loop tb log maxtype attrs policy) = Ret 0 ->
  t <= maxtype ->
  p_tb (nla_parse_loop tb log maxtype attrs policy) !! t
  = match last (of_type t attrs) with
    | Some nla => Some nla
    | None => tb !! t
    end.
Proof.
  intros Hdone Ht. revert tb log Hdone.
  induction attrs as [|nla attrs IH]; intros tb log Hdone; [done|].
  cbn [nla_parse_loop] in *. rewrite of_type_cons.
  destruct (Z.eqb_spec (nla_type nla) t) as [Heq|Hne].
  - replace (nla_type nla >? maxtype) with false in *
      by (symmetry; rewrite Z.gtb_ltb; apply Z.ltb_ge; lia).
    destruct (match policy_given policy with
              | Some p => validate_nla nla maxtype p
              | None => Ret 0
              end) as [err|e]; [|done].
    destruct (err <? 0) eqn:Herr.
    { simpl in Hdone. injection Hdone as ->. done. }
    rewrite (IH _ _ Hdone), last_cons.
    destruct (last (of_type t attrs)); [done|].
    rewrite Heq. apply lookup_insert_eq.
  - destruct (nla_type nla >? maxtype); [by apply IH|].
    destruct (match policy_given policy with
              | Some p => validate_nla nla maxtype p
              | None => Ret 0
              end) as [err|e]; [|done].
    destruct (err <? 0) eqn:Herr.
    { simpl in Hdone. injection Hdone as ->. done. }
    rewrite (IH _ _ Hdone).
    destruct (last (of_type t attrs)); [done|].
    by apply lookup_insert_ne.
Qed.

(** After a loop that ran to its end, the log has one more report for type
    [t] per attribute of type [t] in the stream, the first one excepted
    when the table had nothing under [t]. *)
Lemma nla_parse_loop_log (tb : gmap Z nlattr) (log : list log_event)
    (maxtype : Z) (attrs : list nlattr) (policy : option (gmap Z nla_policy))
    (t : Z) :
  p_result (nla_parse_loop tb log maxtype attrs policy) = Ret 0 ->
  t <= maxtype ->
  duplicates_logged t (p_log (nla_parse_loop tb log maxtype attrs policy))
  = (duplicates_logged t log + length (of_type t attrs)
     - match of_type t attrs, tb !! t with
       | _ :: _, None => 1
       | _, _ => 0
       end)%nat.
Proof.
  intros Hdone Ht. revert tb log Hdone.
  induction attrs as [|nla attrs IH]; intros tb log Hdone.
  { simpl. lia. }
  cbn [nla_parse_loop] in *. rewrite of_type_cons.
  destruct (Z.eqb_spec (nla_type nla) t) as [Heq|Hne].
  - replace (nla_type nla >? maxtype) with false in *
      by (symmetry; rewrite Z.gtb_ltb; apply Z.ltb_ge; lia).
    destruct (match policy_given policy with
              | Some p => validate_nla nla maxtype p
              | None => Ret 0
              end) as [err|e]; [|done].
    destruct (err <? 0) eqn:Herr.
    { simpl in Hdone. injection Hdone as ->. done. }
    rewrite (IH _ _ Hdone). rewrite Heq in *. rewrite lookup_insert_eq.
    destruct (tb !! t).
    + rewrite duplicates_logged_snoc, Z.eqb_refl.
      destruct (of_type t attrs); simpl; lia.
    + destruct (of_type t attrs); simpl; lia.
  - destruct (nla_type nla >? maxtype); [by apply IH|].
    destruct (match policy_given policy with
              | Some p => validate_nla nla maxtype p
              | None => Ret 0
              end) as [err|e]; [|done].
    destruct (err <? 0) eqn:Herr.
    { simpl in Hdone. injection Hdone as ->. done. }
    rewrite (IH _ _ Hdone), lookup_insert_ne by done.
    replace (duplicates_logged t
               match tb !! nla_type nla with
               | Some _ => log ++ [LogDuplicate (nla_type nla)]
               | None => log
               end) with (duplicates_logged t log); [done|].
    destruct (tb !! nla_type nla); [|done].
    rewrite duplicates_logged_snoc.
    destruct (Z.eqb_spec (nla_type nla) t); [done | lia].
Qed.

(** Without a policy nothing is validated and the loop always runs to its
    end. *)
Lemma nla_parse_loop_no_policy (tb : gmap Z nlattr) (log : list log_event)
    (maxtype : Z) (attrs : list nlattr) :
  p_result (nla_parse_loop tb log maxtype attrs None) = Ret 0.
Proof.
  revert tb log. induction attrs as [|nla attrs IH]; intros tb log; [done|].
  cbn [nla_parse_loop policy_given]. destruct (nla_type nla >? maxtype); [done|].
  cbn. apply IH.
Qed.

(** C2, as the code has it. When the records before [bad] all pass and
    [bad] fails validation with the error [err], [nla_parse] returns [err],
    and the table the caller passed in is left as the parse of the records
    before [bad] built it: each type those records carry maps to the last
    of them, and nothing of [bad] or of what follows it is stored. *)
Theorem nla_parse_error_keeps_stored (tb : gmap Z nlattr) (maxtype : Z)
    (before after : list pyobj) (bad : nlattr)
    (policy : option (gmap Z nla_policy)) (p : gmap Z nla_policy) (err : Z) :
  p_result (nla_parse tb maxtype before policy) = Ret 0 ->
  nla_type bad <= maxtype ->
  policy_given policy = Some p ->
  validate_nla bad maxtype p = Ret err ->
  err < 0 ->
  nla_parse tb maxtype (before ++ ONlattr bad :: after) policy
  = mk_parsed (Ret err) (p_tb (nla_parse tb maxtype before policy))
      (p_log (nla_parse tb maxtype before policy))
  /\ forall t, t <= maxtype ->
       p_tb (nla_parse tb maxtype (before ++ ONlattr bad :: after) policy) !! t
       = match last (of_type t (nla_for_each_attr before)) with
         | Some nla => Some nla
         | None => tb !! t
         end.
Proof.
  intros Hbefore Hty Hpolicy Hbad Herr.
  assert (nla_parse tb maxtype (before ++ ONlattr bad :: after) policy
          = mk_parsed (Ret err) (p_tb (nla_parse tb maxtype before policy))
              (p_log (nla_parse tb maxtype before policy))) as Hout.
  { unfold nla_parse in *. rewrite nla_for_each_attr_app.
    rewrite (nla_parse_loop_app _ _ _ _ _ _ Hbefore).
    cbn [nla_for_each_attr nla_parse_loop].
    replace (nla_type bad >? maxtype) with false
      by (symmetry; rewrite Z.gtb_ltb; apply Z.ltb_ge; lia).
    rewrite Hpolicy, Hbad.
    replace (err <? 0) with true by (symmetry; apply Z.ltb_lt; lia).
    reflexivity. }
  split; [exact Hout|].
  intros t Ht. rewrite Hout. cbn [p_tb].
  by apply nla_parse_loop_table.
Qed.

(** The example of C2 through the theorem: a family id that passes, then a
    version attribute that is too short. *)
Lemma nla_parse_error_keeps_stored_witness :
  let family_id := new_nlattr CTRL_ATTR_FAMILY_ID (PCUInt W16 16) in
  let version := new_nlattr CTRL_ATTR_VERSION (PBytes [x01; x00]) in
  nla_parse ∅ CTRL_ATTR_MAX [ONlattr family_id; ONlattr version]
    (Some ctrl_policy)
  = mk_parsed (Ret (- NLE_RANGE))
      (p_tb (nla_parse ∅ CTRL_ATTR_MAX [ONlattr family_id] (Some ctrl_policy)))
      (p_log (nla_parse ∅ CTRL_ATTR_MAX [ONlattr family_id] (Some ctrl_policy))).
Proof.
  intros family_id version.
  apply (nla_parse_error_keeps_stored ∅ CTRL_ATTR_MAX [ONlattr family_id] []
           version (Some ctrl_policy) ctrl_policy (- NLE_RANGE)).
  - reflexivity.
  - vm_compute. discriminate.
  - reflexivity.
  - reflexivity.
  - reflexivity.
Defined.

(** C2, as the claim has it, fails. Parsing into an empty table a stream
    whose second record fails validation returns the range error, and the
    table the caller passed in now holds the first record. *)
Lemma nla_parse_partial_table_counterexample :
  let family_id := new_nlattr CTRL_ATTR_FAMILY_ID (PCUInt W16 16) in
  let version := new_nlattr CTRL_ATTR_VERSION (PBytes [x01; x00]) in
  let out := nla_parse ∅ CTRL_ATTR_MAX [ONlattr family_id; ONlattr version]
               (Some ctrl_policy) in
  p_result out = Ret (- NLE_RANGE)
  /\ p_tb out !! CTRL_ATTR_FAMILY_ID = Some family_id
  /\ p_tb out <> ∅.
Proof.
  split_and!; [reflexivity | reflexivity |].
  intros Hempty.
  apply (f_equal (λ m : gmap Z nlattr, m !! CTRL_ATTR_FAMILY_ID)) in Hempty.
  vm_compute in Hempty. discriminate.
Qed.

(** C10. When [nla_parse] runs to its end (it returns 0), every type code
    [t] within [maxtype] that occurs in the stream is mapped to the last
    attribute of that type in stream order, and the log has one report of a
    duplicate of [t] for each attribute of type [t] that was overwritten:
    all of them but the last, and, when the table the caller passed in
    already had an entry for [t], that entry as well. *)
Theorem nla_parse_last_write_wins (tb : gmap Z nlattr) (maxtype : Z)
    (head : list pyobj) (policy : option (gmap Z nla_policy)) (t : Z) :
  p_result (nla_parse tb maxtype head policy) = Ret 0 ->
  t <= maxtype ->
  of_type t (nla_for_each_attr head) <> [] ->
  p_tb (nla_parse tb maxtype head policy) !! t
  = last (of_type t (nla_for_each_attr head))
  /\ duplicates_logged t (p_log (nla_parse tb maxtype head policy))
     = (length (of_type t (nla_for_each_attr head))
        - match tb !! t with None => 1 | Some _ => 0 end)%nat.
Proof.
  intros Hdone Ht Hsome. unfold nla_parse in *. split.
  - rewrite (nla_parse_loop_table _ _ _ _ _ _ Hdone Ht).
    destruct (last (of_type t (nla_for_each_attr head))) eqn:Hlast; [done|].
    by apply last_None in Hlast.
  - rewrite (nla_parse_loop_log _ _ _ _ _ _ Hdone Ht).
    destruct (of_type t (nla_for_each_attr head)); [done|].
    destruct (tb !! t); simpl; lia.
Qed.

(** The example of C10: two attributes of type 3 and one of type 1 between
    them, parsed into an empty table without a policy. The table has the
    second attribute of type 3 and the log has one report. *)
Lemma nla_parse_last_write_wins_witness :
  let first := new_nlattr 3 (PCUInt W32 1) in
  let other := new_nlattr 1 (PCUInt W16 16) in
  let second := new_nlattr 3 (PCUInt W32 2) in
  let out := nla_parse ∅ 7 [ONlattr first; ONlattr other; ONlattr second] None in
  p_tb out !! 3 = Some second /\ duplicates_logged 3 (p_log out) = 1%nat.
Proof.
  intros first other second out.
  assert (p_result out = Ret 0) as Hdone by reflexivity.
  assert (3 <= 7) as Hle by lia.
  assert (of_type 3 (nla_for_each_attr
            [ONlattr first; ONlattr other; ONlattr second]) <> [])
    as Hsome by (vm_compute; discriminate).
  exact (nla_parse_last_write_wins ∅ 7
           [ONlattr first; ONlattr other; ONlattr second] None 3
           Hdone Hle Hsome).
Defined.

(** ** Integers and strings, written and read back *)

Lemma cwidth_eqb_refl (w : cwidth) : cwidth_eqb w w = true.
Proof. by destruct w. Qed.

(** C8. For each of the four widths and every value [v] that fits the
    width, given as a Python int or as the ctypes integer of that width,
    the encoder returns 0 and appends one attribute to the message, and the
    decoder of the same width returns [v] from that attribute. *)
Theorem nla_put_get_uint_roundtrip (w : cwidth) (msg : nl_msg) (attrtype v : Z)
    (value : pyval) :
  0 <= v < 2 ^ cbits w ->
  value = VInt v \/ value = VCUInt w v ->
  exists (nla : nlattr) (log : list log_event),
    nla_put_uint w msg attrtype value
    = Ret (0, payload_append msg (ONlattr nla), log)
    /\ nla_get_uint w nla = Ret v
    /\ nla_type nla = Z.land attrtype NLA_TYPE_MASK
    /\ nla_len nla = csizeof w.
Proof.
  intros Hv Hvalue.
  exists (new_nlattr attrtype (PCUInt w v)).
  assert (as_c_uint w value = Ret (PCUInt w v)) as Hdata.
  { destruct Hvalue as [-> | ->]; simpl.
    - by rewrite Z.mod_small.
    - by rewrite cwidth_eqb_refl. }
  unfold nla_put_uint. rewrite Hdata. cbn [mbind pyres_bind].
  unfold nla_put.
  destruct (payload_not (PCUInt w v)); eexists; (split; [reflexivity|]).
  all: split_and!.
  all: try (unfold nla_get_uint; simpl; by rewrite cwidth_eqb_refl).
  all: try reflexivity.
  all: unfold nla_len, new_nlattr, NLA_HDRLEN; simpl; lia.
Qed.

(** C8 for each pair of functions of the source, on a value at the top of
    its range. *)
Lemma nla_put_get_uint_roundtrip_witness :
  (exists nla log,
     nla_put_u8 nlmsg_alloc 1 (VInt 255)
     = Ret (0, payload_append nlmsg_alloc (ONlattr nla), log)
     /\ nla_get_u8 nla = Ret 255)
  /\ (exists nla log,
        nla_put_u16 nlmsg_alloc 1 (VInt 65535)
        = Ret (0, payload_append nlmsg_alloc (ONlattr nla), log)
        /\ nla_get_u16 nla = Ret 65535)
  /\ (exists nla log,
        nla_put_u32 nlmsg_alloc 1 (VCUInt W32 4294967295)
        = Ret (0, payload_append nlmsg_alloc (ONlattr nla), log)
        /\ nla_get_u32 nla = Ret 4294967295)
  /\ (exists nla log,
        nla_put_u64 nlmsg_alloc 1 (VInt 18446744073709551615)
        = Ret (0, payload_append nlmsg_alloc (ONlattr nla), log)
        /\ nla_get_u64 nla = Ret 18446744073709551615).
Proof.
  split_and!.
  - destruct (nla_put_get_uint_roundtrip W8 nlmsg_alloc 1 255 (VInt 255))
      as (nla & log & Hput & Hget & _); [simpl; lia | by left |]. eauto.
  - destruct (nla_put_get_uint_roundtrip W16 nlmsg_alloc 1 65535 (VInt 65535))
      as (nla & log & Hput & Hget & _); [simpl; lia | by left |]. eauto.
  - destruct (nla_put_get_uint_roundtrip W32 nlmsg_alloc 1 4294967295
                (VCUInt W32 4294967295))
      as (nla & log & Hput & Hget & _); [simpl; lia | by right |]. eauto.
  - destruct (nla_put_get_uint_roundtrip W64 nlmsg_alloc 1 18446744073709551615
                (VInt 18446744073709551615))
      as (nla & log & Hput & Hget & _); [simpl; lia | by left |]. eauto.
Defined.

Lemma byte_eqb_refl (b : byte) : Byte.eqb b b = true.
Proof. by apply Byte.byte_dec_lb. Qed.

Lemma lstrip_byte_suffix (c : byte) (bs : list byte) :
  exists n : nat, bs = replicate n c ++ lstrip_byte c bs.
Proof.
  induction bs as [|b bs [n IH]]; simpl.
  - by exists 0%nat.
  - destruct (Byte.eqb b c) eqn:Hb.
    + apply Byte.byte_dec_bl in Hb. subst b. exists (S n). simpl. by f_equal.
    + by exists 0%nat.
Qed.

Lemma lstrip_byte_head (c : byte) (bs : list byte) :
  head (lstrip_byte c bs) <> Some c.
Proof.
  induction bs as [|b bs IH]; simpl; [done|].
  destruct (Byte.eqb b c) eqn:Hb; [done|].
  simpl. intros [= ->]. by rewrite byte_eqb_refl in Hb.
Qed.

(** What [rstrip_byte] returns is the string without its trailing run of
    [c]: the string is the result followed by some number of [c], and the
    result does not end in [c]. *)
Lemma rstrip_byte_spec (c : byte) (bs : list byte) :
  (exists n : nat, bs = rstrip_byte c bs ++ replicate n c)
  /\ last (rstrip_byte c bs) <> Some c.
Proof.
  unfold rstrip_byte. split.
  - destruct (lstrip_byte_suffix c (reverse bs)) as [n Hn]. exists n.
    rewrite <- (reverse_involutive bs) at 1. rewrite Hn at 1.
    by rewrite reverse_app, reverse_replicate.
  - rewrite last_reverse. apply lstrip_byte_head.
Qed.

Lemma rstrip_byte_snoc (c : byte) (bs : list byte) :
  rstrip_byte c (bs ++ [c]) = rstrip_byte c bs.
Proof.
  unfold rstrip_byte. rewrite reverse_app. simpl.
  by rewrite byte_eqb_refl.
Qed.

Lemma endswith_nul_last (bs : list byte) :
  endswith_nul bs = true <-> last bs = Some x00.
Proof.
  unfold endswith_nul. destruct (last bs) as [b|]; [|done].
  split.
  - intros Hb. apply Byte.byte_dec_bl in Hb. by subst.
  - intros [= ->]. apply byte_eqb_refl.
Qed.

(** C9. For every byte string [s], [nla_put_string] returns 0 and appends
    one attribute whose payload is [s] itself when [s] ends in NUL and [s]
    followed by one NUL otherwise; the payload ends in NUL and the length
    the attribute declares counts it; [nla_get_string] returns from that
    attribute [s] without its trailing NULs, in both cases. *)
Theorem nla_put_get_string_roundtrip (msg : nl_msg) (attrtype : Z) (s : list byte) :
  exists (stored : list byte) (log : list log_event),
    nla_put_string msg attrtype s
    = (0, payload_append msg (ONlattr (new_nlattr attrtype (PBytes stored))), log)
    /\ (last s = Some x00 /\ stored = s \/ last s <> Some x00 /\ stored = s ++ [x00])
    /\ last stored = Some x00
    /\ nla_len (new_nlattr attrtype (PBytes stored)) = Z.of_nat (length stored)
    /\ nla_get_string (new_nlattr attrtype (PBytes stored)) = Ret (rstrip_byte x00 s)
    /\ (exists n : nat, s = rstrip_byte x00 s ++ replicate n x00)
    /\ last (rstrip_byte x00 s) <> Some x00.
Proof.
  exists (if endswith_nul s then s else s ++ [x00]).
  unfold nla_put_string, nla_put.
  destruct (payload_not _); eexists; (split; [reflexivity|]).
  all: destruct (endswith_nul s) eqn:Hend.
  all: pose proof (rstrip_byte_spec x00 s) as [Hrun Hlast].
  all: split_and!; try done.
  all: try (left; split; [by apply endswith_nul_last | done]).
  all: try (right; split; [|done]; intros Hl; apply endswith_nul_last in Hl;
            congruence).
  all: try (by apply endswith_nul_last).
  all: try apply last_snoc.
  all: try (unfold nla_len, new_nlattr, NLA_HDRLEN; simpl; lia).
  all: unfold nla_get_string, new_nlattr; simpl; by rewrite rstrip_byte_snoc.
Qed.

(** ** The response handler and the resolution of a family name *)

(** A reply whose attributes do not parse is skipped, and the descriptor is
    left alone. *)
Lemma probe_response_parse_failure (msg : nl_msg) (family : genl_family) (rc : Z) :
  p_result (genlmsg_parse (nlmsg_hdr msg) 0 ∅ CTRL_ATTR_MAX (Some ctrl_policy))
  = Ret rc ->
  rc <> 0 ->
  probe_response msg family = (Ret NL_SKIP, family).
Proof.
  intros Hparse Hrc. unfold probe_response. cbv zeta. rewrite Hparse.
  unfold lift, mbind, handler_bind.
  destruct (Z.eqb_spec rc 0); [done|]. reflexivity.
Qed.

(** As long as every reply is skipped the receive loop goes through all of
    them and the descriptor keeps the id 0. *)
Lemma receive_until_all_skipped (replies : list nl_msg) (rc : Z)
    (family : genl_family) :
  Forall (λ msg, probe_response msg family = (Ret NL_SKIP, family)) replies ->
  receive_until probe_response replies rc family = (Ret rc, family).
Proof.
  induction 1 as [|msg replies Hmsg _ IH]; [done|].
  cbn [receive_until]. unfold mbind, handler_bind at 1. rewrite Hmsg.
  exact IH.
Qed.

(** A probe whose replies are all skipped never sees an id, and the
    resolution reports that the family was not found, whatever the
    transport says of the receive and of the acknowledgment. *)
Lemma genl_ctrl_resolve_not_found (sk : nl_sock) (name : list byte) :
  Forall (λ msg, probe_response msg (mk_genl_family 0 name)
                 = (Ret NL_SKIP, mk_genl_family 0 name)) (sk_replies sk) ->
  genl_ctrl_resolve sk name = Ret (- NLE_OBJ_NOTFOUND).
Proof.
  intros Hskipped. unfold genl_ctrl_resolve, genl_ctrl_probe_by_name. cbv zeta.
  destruct (nl_send_auto sk _ <? 0); [done|].
  unfold nl_recvmsgs. cbn [genl_family_set_name genl_family_alloc f_id snd].
  rewrite (receive_until_all_skipped _ _ _ Hskipped).
  destruct (sk_recv sk <? 0); [done|].
  destruct (wait_for_ack sk <? 0); done.
Qed.

(** C3 on the code. When the attributes of a reply parse and none of them is
    the family id, the table has no entry under that key and the handler
    raises KeyError where it subscripts the table; the descriptor is left
    alone. When such a reply is the first one of a transport whose send
    succeeds, the exception goes through the receive loop and the probe and
    leaves [genl_ctrl_resolve]. *)
Theorem probe_response_without_family_id (msg : nl_msg) (family : genl_family) :
  p_result (genlmsg_parse (nlmsg_hdr msg) 0 ∅ CTRL_ATTR_MAX (Some ctrl_policy))
  = Ret 0 ->
  of_type CTRL_ATTR_FAMILY_ID (nla_for_each_attr (nlmsghdr.payload (nm_nlh msg)))
  = [] ->
  probe_response msg family = (Raise KeyError, family)
  /\ forall (sk : nl_sock) (name : list byte) (rest : list nl_msg),
       sk_replies sk = msg :: rest ->
       (forall request, 0 <= sk_send sk request) ->
       genl_ctrl_resolve sk name = Raise KeyError.
Proof.
  intros Hparse Hnone.
  assert (forall fam, probe_response msg fam = (Raise KeyError, fam)) as Hraise.
  { intros fam. unfold probe_response. cbv zeta. rewrite Hparse.
    unfold lift at 1. unfold mbind at 1, handler_bind at 1. cbn [Z.eqb negb].
    assert (p_tb (genlmsg_parse (nlmsg_hdr msg) 0 ∅ CTRL_ATTR_MAX
                    (Some ctrl_policy)) !! CTRL_ATTR_FAMILY_ID = None) as Hkey.
    { unfold genlmsg_parse, nla_parse, nlmsg_hdr in *.
      rewrite (nla_parse_loop_table _ _ _ _ _ _ Hparse); [|done].
      by rewrite Hnone. }
    rewrite (dict_getitem_None _ _ Hkey). reflexivity. }
  split; [apply Hraise|].
  intros sk name rest Hreplies Hsend.
  unfold genl_ctrl_resolve, genl_ctrl_probe_by_name. cbv zeta.
  unfold nl_send_auto.
  replace (sk_send sk _ <? 0) with false
    by (symmetry; apply Z.ltb_ge; apply Hsend).
  unfold nl_recvmsgs. rewrite Hreplies. cbn [receive_until].
  unfold mbind at 2, handler_bind at 1. rewrite Hraise. reflexivity.
Qed.

(** C3 at a reply that carries the family name and nothing else. *)
Lemma probe_response_without_family_id_witness :
  let reply := genlmsg_put nlmsg_alloc in
  let reply := (nla_put_string reply CTRL_ATTR_FAMILY_NAME
                  [x6e; x6c; x63; x74; x72; x6c]).1.2 in
  probe_response reply genl_family_alloc = (Raise KeyError, genl_family_alloc)
  /\ genl_ctrl_resolve (mk_nl_sock (λ _, 0) [reply] 0 0)
       [x6e; x6c; x63; x74; x72; x6c] = Raise KeyError.
Proof.
  intros reply0 reply.
  assert (p_result (genlmsg_parse (nlmsg_hdr reply) 0 ∅ CTRL_ATTR_MAX
                      (Some ctrl_policy)) = Ret 0) as Hparse by reflexivity.
  assert (of_type CTRL_ATTR_FAMILY_ID
            (nla_for_each_attr (nlmsghdr.payload (nm_nlh reply))) = [])
    as Hnone by reflexivity.
  destruct (probe_response_without_family_id reply genl_family_alloc
              Hparse Hnone) as [Hhandler Hresolve].
  split; [exact Hhandler|].
  apply (Hresolve (mk_nl_sock (λ _, 0) [reply] 0 0) _ []); [reflexivity|].
  intros request. simpl. lia.
Defined.

(** * Further properties of attr.py *)

(** ** Type codes, lengths and the walk by ok and next *)

Lemma land_type_mask (field : Z) :
  0 <= field < 2 ^ 16 -> Z.land field NLA_TYPE_MASK = field mod 2 ^ 14.
Proof.
  intros Hfield. unfold NLA_TYPE_MASK, NLA_F_FLAGS.
  change (Z.lor (Z.shiftl 1 15) (Z.shiftl 1 14)) with (3 * 2 ^ 14).
  apply Z.bits_inj'. intros n Hn.
  rewrite Z.land_spec, Z.lnot_spec by lia.
  destruct (Z.lt_ge_cases n 14) as [Hlow|Hhigh].
  - rewrite Z.mod_pow2_bits_low by lia.
    rewrite Z.mul_pow2_bits_low by lia. apply andb_true_r.
  - rewrite Z.mod_pow2_bits_high by lia.
    destruct (Z.lt_ge_cases n 16) as [Hflag|Habove].
    + assert (n = 14 \/ n = 15) as [-> | ->] by lia; apply andb_false_r.
    + rewrite <- (Z.mod_small field (2 ^ 16)) by lia.
      by rewrite Z.mod_pow2_bits_high by lia.
Qed.

(** X1. The type code of an attribute whose type field is a 16-bit value is
    the field without its two high bits: a value below [2^14], the same for
    every setting of the flags. *)
Theorem nla_type_masks_flags (nla : nlattr) :
  0 <= nlattr.nla_type nla < 2 ^ 16 ->
  nla_type nla = nlattr.nla_type nla mod 2 ^ 14
  /\ 0 <= nla_type nla < 2 ^ 14.
Proof.
  intros Hfield. unfold nla_type. rewrite land_type_mask by done.
  split; [done|]. apply Z.mod_pos_bound. lia.
Qed.

Lemma nla_type_masks_flags_witness :
  let nla := nlattr.mk 8 (32768 + 16384 + 5) PNone in
  nla_type nla = (32768 + 16384 + 5) mod 2 ^ 14 /\ 0 <= nla_type nla < 2 ^ 14.
Proof.
  intros nla. apply (nla_type_masks_flags nla). simpl. lia.
Defined.

Lemma nla_type_code (len t : Z) (p : payload_t) :
  0 <= t < 2 ^ 14 -> nla_type (nlattr.mk len t p) = t.
Proof.
  intros Ht. unfold nla_type. cbn [nlattr.nla_type].
  rewrite land_type_mask by lia. apply Z.mod_small. lia.
Qed.




(** ** Looking an attribute up *)

Lemma nla_find_loop_head (attrs : list nlattr) (t : Z) :
  nla_find_loop attrs t = head (of_type t attrs).
Proof.
  induction attrs as [|nla attrs IH]; [done|].
  cbn [nla_find_loop]. rewrite of_type_cons.
  by destruct (nla_type nla =? t).
Qed.

Lemma of_type_app (t : Z) (l1 l2 : list nlattr) :
  of_type t (l1 ++ l2) = of_type t l1 ++ of_type t l2.
Proof. apply List.filter_app. Qed.

Lemma of_type_elem (t : Z) (attrs : list nlattr) (nla : nlattr) :
  nla ∈ of_type t attrs <-> nla ∈ attrs /\ nla_type nla = t.
Proof.
  unfold of_type. rewrite !list_elem_of_In, List.filter_In, Z.eqb_eq. done.
Qed.

Lemma nla_for_each_attr_elem (head : list pyobj) (nla : nlattr) :
  nla ∈ nla_for_each_attr head <-> ONlattr nla ∈ head.
Proof.
  induction head as [|[a|] head IH]; simpl.
  - split; intros H; inversion H.
  - rewrite !elem_of_cons, IH. split; intros [H|H]; auto; left; congruence.
  - rewrite elem_of_cons, IH. split; [auto | intros [H|H]; [done | auto]].
Qed.

(** X3. [nla_find] returns an attribute exactly when the list splits
    around it into a part with no attribute of the wanted type, the
    attribute itself, which has that type, and a rest that is not looked
    at; it returns [None] exactly when no attribute of the list has the
    type. Objects that are not attributes are passed over. *)
Theorem nla_find_first (attrs : list pyobj) (t : Z) :
  (forall nla,
     nla_find attrs t = Some nla <->
     exists h1 h2, attrs = h1 ++ ONlattr nla :: h2
                   /\ nla_type nla = t
                   /\ of_type t (nla_for_each_attr h1) = [])
  /\ (nla_find attrs t = None <->
      forall nla, ONlattr nla ∈ attrs -> nla_type nla <> t).
Proof.
  unfold nla_find. split.
  - intros nla. split.
    + induction attrs as [|[a|] attrs IH]; simpl; [done | |].
      * destruct (Z.eqb_spec (nla_type a) t) as [Heq|Hne].
        { intros [= ->]. by exists [], attrs. }
        intros Hfound. destruct (IH Hfound) as (h1 & h2 & -> & Hty & Hnone).
        exists (ONlattr a :: h1), h2. split_and!; [done | done |].
        cbn [nla_for_each_attr]. rewrite of_type_cons.
        by destruct (Z.eqb_spec (nla_type a) t).
      * intros Hfound. destruct (IH Hfound) as (h1 & h2 & -> & Hty & Hnone).
        by exists (OOther :: h1), h2.
    + intros (h1 & h2 & -> & Hty & Hnone).
      rewrite nla_find_loop_head, nla_for_each_attr_app, of_type_app, Hnone.
      cbn [nla_for_each_attr app]. rewrite of_type_cons.
      apply Z.eqb_eq in Hty. by rewrite Hty.
  - rewrite nla_find_loop_head. split.
    + intros Hhead nla Hin Hty.
      assert (nla ∈ of_type t (nla_for_each_attr attrs)) as Hmem
        by (apply of_type_elem; split; [by apply nla_for_each_attr_elem | done]).
      destruct (of_type t (nla_for_each_attr attrs)); [inversion Hmem | done].
    + intros Hall.
      destruct (of_type t (nla_for_each_attr attrs)) as [|nla rest] eqn:Hof;
        [done|].
      assert (nla ∈ of_type t (nla_for_each_attr attrs)) as Hmem
        by (rewrite Hof; left).
      apply of_type_elem in Hmem as [Hin Hty].
      apply nla_for_each_attr_elem in Hin. by destruct (Hall nla Hin).
Qed.

(** X4. After a parse into an empty table that ran to its end, a type code
    within [maxtype] is in the table exactly when [nla_find] finds it in the
    stream. The two return the same attribute when the stream has at most
    one attribute of the type; with more, [nla_find] returns the first and
    the table holds the last. *)
Theorem nla_parse_agrees_with_nla_find (maxtype : Z) (stream : list pyobj)
    (policy : option (gmap Z nla_policy)) (t : Z) :
  p_result (nla_parse ∅ maxtype stream policy) = Ret 0 ->
  t <= maxtype ->
  nla_find stream t = head (of_type t (nla_for_each_attr stream))
  /\ p_tb (nla_parse ∅ maxtype stream policy) !! t
     = last (of_type t (nla_for_each_attr stream))
  /\ (p_tb (nla_parse ∅ maxtype stream policy) !! t = None
      <-> nla_find stream t = None)
  /\ ((length (of_type t (nla_for_each_attr stream)) <= 1)%nat ->
      p_tb (nla_parse ∅ maxtype stream policy) !! t = nla_find stream t).
Proof.
  intros Hdone Ht. unfold nla_parse, nla_find in *.
  rewrite nla_find_loop_head, (nla_parse_loop_table _ _ _ _ _ _ Hdone Ht).
  rewrite lookup_empty.
  destruct (of_type t (nla_for_each_attr stream)) as [|a [|b rest]].
  - done.
  - done.
  - split_and!; [done | | | simpl; lia].
    + by destruct (last (a :: b :: rest)).
    + rewrite last_cons. by destruct (last (b :: rest)).
Qed.

Lemma nla_parse_agrees_with_nla_find_witness :
  let first := new_nlattr 3 (PCUInt W32 1) in
  let second := new_nlattr 3 (PCUInt W32 2) in
  let stream := [OOther; ONlattr first; ONlattr second] in
  nla_find stream 3 = Some first
  /\ p_tb (nla_parse ∅ 7 stream None) !! 3 = Some second.
Proof.
  intros first second stream.
  assert (p_result (nla_parse ∅ 7 stream None) = Ret 0) as Hdone by reflexivity.
  assert (3 <= 7) as Hle by lia.
  destruct (nla_parse_agrees_with_nla_find 7 stream None 3 Hdone Hle)
    as (Hfind & Htable & _).
  split; [exact Hfind | exact Htable].
Defined.

(** ** What a parse does to the table, whatever its outcome *)

(** X5. Attributes whose type code is above [maxtype] play no part in a
    parse: they are neither validated nor stored nor logged, so the outcome
    is that of the parse of the stream without them. *)
Theorem nla_parse_skips_above_maxtype (tb : gmap Z nlattr) (maxtype : Z)
    (stream : list pyobj) (policy : option (gmap Z nla_policy)) :
  nla_parse tb maxtype stream policy
  = nla_parse_loop tb [] maxtype
      (List.filter (λ nla, nla_type nla <=? maxtype) (nla_for_each_attr stream))
      policy.
Proof.
  unfold nla_parse. generalize (@nil log_event) as log.
  revert tb. induction (nla_for_each_attr stream) as [|nla attrs IH];
    intros tb log; [done|].
  cbn [List.filter]. rewrite Z.leb_antisym, <- Z.gtb_ltb.
  destruct (nla_type nla >? maxtype) eqn:Hty; cbn [negb].
  - cbn [nla_parse_loop]. rewrite Hty. apply IH.
  - cbn [nla_parse_loop]. rewrite Hty.
    destruct (match policy_given policy with
              | Some p => validate_nla nla maxtype p
              | None => Ret 0
              end) as [err|e]; [|done].
    destruct (err <? 0); [done|]. apply IH.
Qed.

Lemma nla_parse_loop_provenance (tb : gmap Z nlattr) (log : list log_event)
    (maxtype : Z) (attrs : list nlattr) (policy : option (gmap Z nla_policy))
    (t : Z) :
  (maxtype < t -> p_tb (nla_parse_loop tb log maxtype attrs policy) !! t = tb !! t)
  /\ (forall nla,
        p_tb (nla_parse_loop tb log maxtype attrs policy) !! t = Some nla ->
        tb !! t = Some nla
        \/ (nla ∈ attrs /\ nla_type nla = t /\ t <= maxtype)).
Proof.
  revert tb log. induction attrs as [|a attrs IH]; intros tb log.
  { split; [done | auto]. }
  cbn [nla_parse_loop].
  destruct (nla_type a >? maxtype) eqn:Hty.
  { destruct (IH tb log) as [Habove Hfrom]. split; [done|].
    intros nla Hnla. destruct (Hfrom nla Hnla) as [?|(? & ? & ?)]; [by left|].
    right. split_and!; [by right | done | done]. }
  rewrite Z.gtb_ltb in Hty. apply Z.ltb_ge in Hty.
  destruct (match policy_given policy with
            | Some p => validate_nla a maxtype p
            | None => Ret 0
            end) as [err|e]; [|split; [done | auto]].
  destruct (err <? 0); [split; [done | auto]|].
  destruct (IH (<[nla_type a := a]> tb)
              match tb !! nla_type a with
              | Some _ => log ++ [LogDuplicate (nla_type a)]
              | None => log
              end) as [Habove Hfrom].
  split.
  - intros Ht. rewrite (Habove Ht). apply lookup_insert_ne. lia.
  - intros nla Hnla. destruct (Hfrom nla Hnla) as [Hins|(? & ? & ?)].
    + destruct (decide (nla_type a = t)) as [Heq|Hne].
      * rewrite Heq, lookup_insert_eq in Hins. injection Hins as ->.
        right. split_and!; [by left | done | lia].
      * rewrite lookup_insert_ne in Hins by done. by left.
    + right. split_and!; [by right | done | done].
Qed.

(** X6. Whatever the outcome of [nla_parse] (0, an error or an exception),
    the table it leaves has, under a key above [maxtype], what the caller's
    table had, and under any key, either what the caller's table had or an
    attribute of the stream whose type code is that key. *)
Theorem nla_parse_table_provenance (tb : gmap Z nlattr) (maxtype : Z)
    (stream : list pyobj) (policy : option (gmap Z nla_policy)) (t : Z) :
  (maxtype < t -> p_tb (nla_parse tb maxtype stream policy) !! t = tb !! t)
  /\ (forall nla,
        p_tb (nla_parse tb maxtype stream policy) !! t = Some nla ->
        tb !! t = Some nla
        \/ (ONlattr nla ∈ stream /\ nla_type nla = t /\ t <= maxtype)).
Proof.
  unfold nla_parse.
  destruct (nla_parse_loop_provenance tb [] maxtype (nla_for_each_attr stream)
              policy t) as [Habove Hfrom].
  split; [done|].
  intros nla Hnla. destruct (Hfrom nla Hnla) as [?|(Hin & ? & ?)]; [by left|].
  right. split_and!; [by apply nla_for_each_attr_elem | done | done].
Qed.

Lemma validate_nla_result_codes (nla : nlattr) (maxtype : Z)
    (policy : gmap Z nla_policy) (r : Z) :
  validate_nla nla maxtype policy = Ret r ->
  r = 0 \/ r = - NLE_RANGE \/ r = - NLE_INVAL.
Proof.
  unfold validate_nla, dict_getitem, mbind, pyres_bind.
  intros Hr. repeat case_match; simplify_eq; auto.
Qed.

(** X7. The value [nla_parse] returns is 0, the range error or the
    invalid-value error: an exception apart, there is no other outcome. *)
Theorem nla_parse_result_codes (tb : gmap Z nlattr) (maxtype : Z)
    (stream : list pyobj) (policy : option (gmap Z nla_policy)) (r : Z) :
  p_result (nla_parse tb maxtype stream policy) = Ret r ->
  r = 0 \/ r = - NLE_RANGE \/ r = - NLE_INVAL.
Proof.
  unfold nla_parse. generalize (@nil log_event) as log. revert tb.
  induction (nla_for_each_attr stream) as [|nla attrs IH]; intros tb log.
  { intros [= <-]. by left. }
  cbn [nla_parse_loop].
  destruct (nla_type nla >? maxtype); [apply IH|].
  destruct (policy_given policy) as [p|].
  - destruct (validate_nla nla maxtype p) as [err|e] eqn:Hvalid; [|done].
    destruct (err <? 0); [|apply IH].
    intros [= <-]. by apply validate_nla_result_codes in Hvalid.
  - apply IH.
Qed.

Lemma nla_parse_result_codes_witness :
  let short := new_nlattr CTRL_ATTR_VERSION (PBytes [x01; x00]) in
  p_result (nla_parse ∅ CTRL_ATTR_MAX [ONlattr short] (Some ctrl_policy))
  = Ret (- NLE_RANGE)
  /\ (- NLE_RANGE = 0 \/ - NLE_RANGE = - NLE_RANGE \/ - NLE_RANGE = - NLE_INVAL).
Proof.
  intros short.
  assert (p_result (nla_parse ∅ CTRL_ATTR_MAX [ONlattr short] (Some ctrl_policy))
          = Ret (- NLE_RANGE)) as Hresult by reflexivity.
  split; [exact Hresult|].
  exact (nla_parse_result_codes ∅ CTRL_ATTR_MAX [ONlattr short]
           (Some ctrl_policy) (- NLE_RANGE) Hresult).
Defined.

(** X8. With no policy, or with an empty one, nothing is validated:
    [nla_parse] returns 0 for every stream, and every type code within
    [maxtype] maps to the last attribute of that type, or to what the
    caller's table had when the stream has none. *)
Theorem nla_parse_without_policy (tb : gmap Z nlattr) (maxtype : Z)
    (stream : list pyobj) (policy : option (gmap Z nla_policy)) (t : Z) :
  policy = None \/ policy = Some ∅ ->
  t <= maxtype ->
  p_result (nla_parse tb maxtype stream policy) = Ret 0
  /\ p_tb (nla_parse tb maxtype stream policy) !! t
     = match last (of_type t (nla_for_each_attr stream)) with
       | Some nla => Some nla
       | None => tb !! t
       end.
Proof.
  intros Hpolicy Ht.
  assert (policy_given policy = None) as Hgiven
    by (destruct Hpolicy as [-> | ->]; reflexivity).
  assert (forall attrs tb' log,
            p_result (nla_parse_loop tb' log maxtype attrs policy) = Ret 0)
    as Hdone.
  { induction attrs as [|nla attrs IH]; intros tb' log; [done|].
    cbn [nla_parse_loop]. rewrite Hgiven.
    destruct (nla_type nla >? maxtype); [apply IH|]. cbn. apply IH. }
  unfold nla_parse. split; [apply Hdone|].
  apply nla_parse_loop_table; [apply Hdone | done].
Qed.

Lemma nla_parse_without_policy_witness :
  let short := new_nlattr CTRL_ATTR_VERSION (PBytes [x01; x00]) in
  p_result (nla_parse ∅ CTRL_ATTR_MAX [ONlattr short] (Some ∅)) = Ret 0
  /\ p_tb (nla_parse ∅ CTRL_ATTR_MAX [ONlattr short] (Some ∅)) !! CTRL_ATTR_VERSION
     = Some short.
Proof.
  intros short.
  assert (CTRL_ATTR_VERSION <= CTRL_ATTR_MAX) as Hle by (vm_compute; discriminate).
  exact (nla_parse_without_policy ∅ CTRL_ATTR_MAX [ONlattr short] (Some ∅)
           CTRL_ATTR_VERSION (or_intror eq_refl) Hle).
Defined.

(** X9. A policy that has no entry for the type code of an attribute within
    [maxtype] makes the validation of that attribute raise KeyError, and the
    exception leaves [nla_parse]; the table is left as the attributes before
    built it. *)
Theorem nla_parse_missing_policy_entry (tb : gmap Z nlattr) (maxtype : Z)
    (before after : list pyobj) (nla : nlattr)
    (policy : option (gmap Z nla_policy)) (p : gmap Z nla_policy) :
  p_result (nla_parse tb maxtype before policy) = Ret 0 ->
  0 <= nla_type nla <= maxtype ->
  policy_given policy = Some p ->
  p !! nla_type nla = None ->
  validate_nla nla maxtype p = Raise KeyError
  /\ nla_parse tb maxtype (before ++ ONlattr nla :: after) policy
     = mk_parsed (Raise KeyError) (p_tb (nla_parse tb maxtype before policy))
         (p_log (nla_parse tb maxtype before policy)).
Proof.
  intros Hbefore [Hlo Hhi] Hpolicy Hentry.
  assert (validate_nla nla maxtype p = Raise KeyError) as Hvalid.
  { unfold validate_nla. cbv zeta.
    replace (nla_type nla <? 0) with false by (symmetry; apply Z.ltb_ge; lia).
    replace (nla_type nla >? maxtype) with false
      by (symmetry; rewrite Z.gtb_ltb; apply Z.ltb_ge; lia).
    cbn [orb]. by rewrite (dict_getitem_None _ _ Hentry). }
  split; [done|].
  unfold nla_parse in *. rewrite nla_for_each_attr_app.
  rewrite (nla_parse_loop_app _ _ _ _ _ _ Hbefore).
  cbn [nla_for_each_attr nla_parse_loop].
  replace (nla_type nla >? maxtype) with false
    by (symmetry; rewrite Z.gtb_ltb; apply Z.ltb_ge; lia).
  by rewrite Hpolicy, Hvalid.
Qed.

(** X9 for the control policy, which has no entry for the attribute type
    0. *)
Lemma nla_parse_missing_policy_entry_witness :
  let unspec := new_nlattr CTRL_ATTR_UNSPEC PNone in
  validate_nla unspec CTRL_ATTR_MAX ctrl_policy = Raise KeyError
  /\ nla_parse ∅ CTRL_ATTR_MAX [ONlattr unspec] (Some ctrl_policy)
     = mk_parsed (Raise KeyError) ∅ [].
Proof.
  intros unspec.
  apply (nla_parse_missing_policy_entry ∅ CTRL_ATTR_MAX [] [] unspec
           (Some ctrl_policy) ctrl_policy).
  - reflexivity.
  - vm_compute. split; discriminate.
  - reflexivity.
  - reflexivity.
Defined.

(** ** What the encoders write passes the validation that goes with it *)

(** X10. Validating an attribute whose payload is a byte string of the
    length the attribute declares never raises, when the policy has an
    entry for its type code that declares one of the types of the codec and
    no negative minimum: the outcome is 0 or one of the two errors. *)
Theorem validate_nla_bytes_never_raises (nla : nlattr) (maxtype : Z)
    (policy : gmap Z nla_policy) (pt : nla_policy) (bs : list byte) :
  0 <= nla_type nla <= maxtype ->
  policy !! nla_type nla = Some pt ->
  0 <= nla_policy.type_ pt <= NLA_TYPE_MAX ->
  0 <= nla_policy.minlen pt ->
  nlattr.payload nla = PBytes bs ->
  nla_len nla = Z.of_nat (length bs) ->
  exists r, validate_nla nla maxtype policy = Ret r.
Proof.
  intros Hty Hpt Hdecl Hminlen Hpayload Hlen.
  rewrite (validate_nla_checks nla maxtype policy pt) by done.
  destruct (Z.ltb_spec (nla_len nla) (effective_minlen pt)); [by eexists|].
  destruct (negb _ && _); [by eexists|].
  destruct (Z.eqb_spec (nla_policy.type_ pt) NLA_STRING) as [Hstr|]; [|by eexists].
  assert (1 <= effective_minlen pt) as Hone.
  { unfold effective_minlen.
    destruct (Z.eqb_spec (nla_policy.minlen pt) 0); [by rewrite Hstr | lia]. }
  assert (bs <> []) as Hne by (intros ->; simpl in Hlen; lia).
  unfold nla_data. rewrite Hpayload, Hlen. cbn [payload_getitem].
  rewrite (bytes_getitem_last bs Hne).
  destruct (last bs) as [b|] eqn:Hlast; [|by apply last_None in Hlast].
  cbn. destruct (negb _); by eexists.
Qed.

Lemma validate_nla_bytes_never_raises_witness :
  exists r,
    validate_nla (new_nlattr CTRL_ATTR_FAMILY_NAME (PBytes [x6e; x00]))
      CTRL_ATTR_MAX ctrl_policy = Ret r.
Proof.
  apply (validate_nla_bytes_never_raises
           (new_nlattr CTRL_ATTR_FAMILY_NAME (PBytes [x6e; x00]))
           CTRL_ATTR_MAX ctrl_policy
           (nla_policy.mk NLA_STRING 0 GENL_NAMSIZ) [x6e; x00]).
  - vm_compute. split; discriminate.
  - reflexivity.
  - vm_compute. split; discriminate.
  - vm_compute. discriminate.
  - reflexivity.
  - reflexivity.
Defined.

Lemma nla_uint_type_range (w : cwidth) :
  0 <= nla_uint_type w <= NLA_TYPE_MAX
  /\ default_minlen (nla_uint_type w) = csizeof w
  /\ (nla_uint_type w =? NLA_STRING) = false.
Proof. destruct w; vm_compute; split_and!; (discriminate || reflexivity). Qed.

(** X11. An attribute that holds an integer of width [w], as the integer
    encoders write it, validated under an entry that declares the integer
    type of width [w'] with no explicit bounds: it passes when [w'] is at
    most [w] and fails with the range error when [w'] is wider. *)
Theorem validate_nla_uint_widths (w w' : cwidth) (attrtype v maxtype : Z)
    (policy : gmap Z nla_policy) :
  0 <= nla_type (new_nlattr attrtype (PCUInt w v)) <= maxtype ->
  policy !! nla_type (new_nlattr attrtype (PCUInt w v))
  = Some (nla_policy.mk (nla_uint_type w') 0 0) ->
  validate_nla (new_nlattr attrtype (PCUInt w v)) maxtype policy
  = if csizeof w <? csizeof w' then Ret (- NLE_RANGE) else Ret 0.
Proof.
  intros Hty Hpt.
  destruct (nla_uint_type_range w') as (Hrange & Hdefault & Hnotstr).
  rewrite (validate_nla_checks _ maxtype policy _ Hty Hpt) by done.
  unfold effective_minlen. cbn [nla_policy.minlen nla_policy.maxlen
                                 nla_policy.type_ Z.eqb negb andb].
  rewrite Hdefault, Hnotstr.
  replace (nla_len (new_nlattr attrtype (PCUInt w v))) with (csizeof w)
    by (unfold nla_len, new_nlattr, NLA_HDRLEN; simpl; lia).
  reflexivity.
Qed.

Lemma validate_nla_uint_widths_witness :
  validate_nla (new_nlattr CTRL_ATTR_FAMILY_ID (PCUInt W16 16)) CTRL_ATTR_MAX
    ctrl_policy = Ret 0
  /\ validate_nla (new_nlattr CTRL_ATTR_VERSION (PCUInt W16 16)) CTRL_ATTR_MAX
       ctrl_policy = Ret (- NLE_RANGE).
Proof.
  split.
  - apply (validate_nla_uint_widths W16 W16 CTRL_ATTR_FAMILY_ID 16
             CTRL_ATTR_MAX ctrl_policy).
    + vm_compute. split; discriminate.
    + reflexivity.
  - apply (validate_nla_uint_widths W16 W32 CTRL_ATTR_VERSION 16
             CTRL_ATTR_MAX ctrl_policy).
    + vm_compute. split; discriminate.
    + reflexivity.
Defined.

(** X12. What [nla_put_string] appends, validated under an entry that
    declares a string with no explicit minimum, never fails the check of
    the terminator: it passes, unless the entry sets a maximum that the
    stored length, terminator included, exceeds, which is the range
    error. *)
Theorem nla_put_string_validates (msg : nl_msg) (attrtype : Z) (s : list byte)
    (maxtype maxlen : Z) (policy : gmap Z nla_policy) :
  0 <= Z.land attrtype NLA_TYPE_MASK <= maxtype ->
  policy !! Z.land attrtype NLA_TYPE_MASK
  = Some (nla_policy.mk NLA_STRING 0 maxlen) ->
  exists (nla : nlattr) (log : list log_event),
    nla_put_string msg attrtype s = (0, payload_append msg (ONlattr nla), log)
    /\ validate_nla nla maxtype policy
       = if negb (maxlen =? 0) && (nla_len nla >? maxlen)
         then Ret (- NLE_RANGE) else Ret 0.
Proof.
  intros Hty Hpt.
  set (stored := if endswith_nul s then s else s ++ [x00]).
  exists (new_nlattr attrtype (PBytes stored)).
  assert (last stored = Some x00) as Hlast.
  { unfold stored. destruct (endswith_nul s) eqn:Hend.
    - by apply endswith_nul_last.
    - apply last_snoc. }
  assert (stored <> []) as Hne by (intros Hnil; by rewrite Hnil in Hlast).
  assert (nla_len (new_nlattr attrtype (PBytes stored))
          = Z.of_nat (length stored)) as Hlen
    by (unfold nla_len, new_nlattr, NLA_HDRLEN; simpl; lia).
  assert (0 < length stored)%nat by (destruct stored; [done | simpl; lia]).
  unfold nla_put_string, nla_put. fold stored.
  destruct (payload_not (PBytes stored)); eexists; (split; [reflexivity|]).
  all: rewrite (validate_nla_checks (new_nlattr attrtype (PBytes stored))
                  maxtype policy _ Hty Hpt)
         by (vm_compute; split; discriminate).
  all: unfold effective_minlen;
       cbn [nla_policy.minlen nla_policy.maxlen nla_policy.type_].
  all: change (default_minlen NLA_STRING) with 1;
       change (0 =? 0) with true; change (NLA_STRING =? NLA_STRING) with true;
       cbv iota.
  all: replace (nla_len (new_nlattr attrtype (PBytes stored)) <? 1) with false
         by (symmetry; apply Z.ltb_ge; lia).
  all: destruct (negb (maxlen =? 0) && _); [reflexivity|].
  all: unfold nla_data; cbn [new_nlattr nlattr.payload payload_getitem];
       rewrite Hlen, (bytes_getitem_last stored Hne), Hlast; reflexivity.
Qed.

(** X12 at the control policy, whose family names are bounded by
    [GENL_NAMSIZ]: a name of six bytes passes, one of sixteen does not. *)
Lemma nla_put_string_validates_witness :
  (exists nla log,
     nla_put_string nlmsg_alloc CTRL_ATTR_FAMILY_NAME
       [x6e; x6c; x63; x74; x72; x6c]
     = (0, payload_append nlmsg_alloc (ONlattr nla), log)
     /\ validate_nla nla CTRL_ATTR_MAX ctrl_policy = Ret 0)
  /\ (exists nla log,
        nla_put_string nlmsg_alloc CTRL_ATTR_FAMILY_NAME (replicate 16 x61)
        = (0, payload_append nlmsg_alloc (ONlattr nla), log)
        /\ validate_nla nla CTRL_ATTR_MAX ctrl_policy = Ret (- NLE_RANGE)).
Proof.
  assert (0 <= Z.land CTRL_ATTR_FAMILY_NAME NLA_TYPE_MASK <= CTRL_ATTR_MAX)
    as Hty by (vm_compute; split; discriminate).
  assert (ctrl_policy !! Z.land CTRL_ATTR_FAMILY_NAME NLA_TYPE_MASK
          = Some (nla_policy.mk NLA_STRING 0 GENL_NAMSIZ)) as Hpt by reflexivity.
  split.
  - destruct (nla_put_string_validates nlmsg_alloc CTRL_ATTR_FAMILY_NAME
                [x6e; x6c; x63; x74; x72; x6c] CTRL_ATTR_MAX GENL_NAMSIZ
                ctrl_policy Hty Hpt) as (nla & log & Hput & Hvalid).
    exists nla, log. split; [exact Hput|]. rewrite Hvalid.
    injection Hput as <- _. reflexivity.
  - destruct (nla_put_string_validates nlmsg_alloc CTRL_ATTR_FAMILY_NAME
                (replicate 16 x61) CTRL_ATTR_MAX GENL_NAMSIZ
                ctrl_policy Hty Hpt) as (nla & log & Hput & Hvalid).
    exists nla, log. split; [exact Hput|]. rewrite Hvalid.
    injection Hput as <- _. reflexivity.
Defined.

(** ** Writing, finding and reading back *)

Lemma msg_attrs_append (msg : nl_msg) (nla : nlattr) :
  msg_attrs (payload_append msg (ONlattr nla)) = msg_attrs msg ++ [nla].
Proof. unfold msg_attrs, payload_append. simpl. apply nla_for_each_attr_app. Qed.

(** X13. An integer encoder handed a Python int of any size or sign does
    not reject it: it stores the value modulo [2^w], and that is what the
    decoder of the same width returns. *)
Theorem nla_put_uint_truncates (w : cwidth) (msg : nl_msg) (attrtype z : Z) :
  exists (nla : nlattr) (log : list log_event),
    nla_put_uint w msg attrtype (VInt z)
    = Ret (0, payload_append msg (ONlattr nla), log)
    /\ nla_get_uint w nla = Ret (z mod 2 ^ cbits w)
    /\ 0 <= z mod 2 ^ cbits w < 2 ^ cbits w.
Proof.
  exists (new_nlattr attrtype (PCUInt w (z mod 2 ^ cbits w))).
  unfold nla_put_uint, as_c_uint. cbn [mbind pyres_bind]. unfold nla_put.
  destruct (payload_not _); eexists; (split; [reflexivity|]).
  all: split; [unfold nla_get_uint; simpl; by rewrite cwidth_eqb_refl|].
  all: apply Z.mod_pos_bound; by destruct w.
Qed.

(** X14. Write an integer under the type code [t], parse the attributes of
    the message without a policy, read the entry of [t] back: it is the
    value just written, whatever the message held before, attributes of the
    same type included. *)
Theorem nla_put_parse_get_uint (w : cwidth) (msg : nl_msg) (t v maxtype : Z) :
  0 <= v < 2 ^ cbits w ->
  0 <= t < 2 ^ 14 ->
  t <= maxtype ->
  exists (msg' : nl_msg) (log : list log_event) (nla : nlattr),
    nla_put_uint w msg t (VInt v) = Ret (0, msg', log)
    /\ p_result (nla_parse ∅ maxtype (nlmsghdr.payload (nm_nlh msg')) None) = Ret 0
    /\ p_tb (nla_parse ∅ maxtype (nlmsghdr.payload (nm_nlh msg')) None) !! t
       = Some nla
    /\ nla_get_uint w nla = Ret v.
Proof.
  intros Hv Ht Hmax.
  set (nla := new_nlattr t (PCUInt w v)).
  exists (payload_append msg (ONlattr nla)).
  assert (nla_type nla = t) as Hty by (by apply nla_type_code).
  assert (exists log, nla_put_uint w msg t (VInt v)
                      = Ret (0, payload_append msg (ONlattr nla), log))
    as [log Hput].
  { unfold nla_put_uint, as_c_uint. rewrite Z.mod_small by done.
    cbn [mbind pyres_bind]. unfold nla_put. fold nla.
    destruct (payload_not _); by eexists. }
  exists log, nla. split; [exact Hput|].
  assert (p_result (nla_parse ∅ maxtype
                      (nlmsghdr.payload (nm_nlh (payload_append msg (ONlattr nla))))
                      None) = Ret 0) as Hdone
    by apply nla_parse_loop_no_policy.
  split; [exact Hdone|]. split.
  - unfold nla_parse in *.
    rewrite (nla_parse_loop_table _ _ _ _ _ _ Hdone Hmax).
    fold (msg_attrs (payload_append msg (ONlattr nla))).
    rewrite msg_attrs_append, of_type_app, of_type_cons.
    apply Z.eqb_eq in Hty. rewrite Hty. cbn [of_type List.filter].
    by rewrite last_snoc.
  - unfold nla_get_uint, nla. simpl. by rewrite cwidth_eqb_refl.
Qed.

Lemma nla_put_parse_get_uint_witness :
  let msg := (nla_put nlmsg_alloc CTRL_ATTR_FAMILY_ID (PCUInt W16 1)).1.2 in
  exists msg' log nla,
    nla_put_u16 msg CTRL_ATTR_FAMILY_ID (VInt 16) = Ret (0, msg', log)
    /\ p_result (nla_parse ∅ CTRL_ATTR_MAX (nlmsghdr.payload (nm_nlh msg')) None)
       = Ret 0
    /\ p_tb (nla_parse ∅ CTRL_ATTR_MAX (nlmsghdr.payload (nm_nlh msg')) None)
         !! CTRL_ATTR_FAMILY_ID = Some nla
    /\ nla_get_u16 nla = Ret 16.
Proof.
  intros msg.
  apply (nla_put_parse_get_uint W16 msg CTRL_ATTR_FAMILY_ID 16 CTRL_ATTR_MAX).
  - simpl. lia.
  - vm_compute. split; [discriminate | reflexivity].
  - vm_compute. discriminate.
Defined.

(** X15. Write a string under a type code [t] that no attribute of the
    message has yet: [nla_find] then returns the attribute just written,
    and [nla_get_string] returns from it the string without its trailing
    NULs. *)
Theorem nla_put_find_get_string (msg : nl_msg) (t : Z) (s : list byte) :
  0 <= t < 2 ^ 14 ->
  of_type t (msg_attrs msg) = [] ->
  exists (msg' : nl_msg) (log : list log_event) (nla : nlattr),
    nla_put_string msg t s = (0, msg', log)
    /\ nla_find (nlmsghdr.payload (nm_nlh msg')) t = Some nla
    /\ nla_get_string nla = Ret (rstrip_byte x00 s).
Proof.
  intros Ht Hnone.
  set (stored := if endswith_nul s then s else s ++ [x00]).
  set (nla := new_nlattr t (PBytes stored)).
  exists (payload_append msg (ONlattr nla)).
  assert (nla_type nla = t) as Hty by (by apply nla_type_code).
  assert (exists log, nla_put_string msg t s
                      = (0, payload_append msg (ONlattr nla), log)) as [log Hput].
  { unfold nla_put_string, nla_put. fold stored. fold nla.
    destruct (payload_not _); by eexists. }
  exists log, nla. split; [exact Hput|]. split.
  - unfold nla_find. rewrite nla_find_loop_head.
    fold (msg_attrs (payload_append msg (ONlattr nla))).
    rewrite msg_attrs_append, of_type_app, Hnone, of_type_cons.
    apply Z.eqb_eq in Hty. by rewrite Hty.
  - unfold nla_get_string, nla, stored. simpl.
    destruct (endswith_nul s); [done|]. by rewrite rstrip_byte_snoc.
Qed.

Lemma nla_put_find_get_string_witness :
  exists msg' log nla,
    nla_put_string (genlmsg_put nlmsg_alloc) CTRL_ATTR_FAMILY_NAME
      [x6e; x6c; x00; x00] = (0, msg', log)
    /\ nla_find (nlmsghdr.payload (nm_nlh msg')) CTRL_ATTR_FAMILY_NAME = Some nla
    /\ nla_get_string nla = Ret (rstrip_byte x00 [x6e; x6c; x00; x00]).
Proof.
  apply (nla_put_find_get_string (genlmsg_put nlmsg_alloc) CTRL_ATTR_FAMILY_NAME
           [x6e; x6c; x00; x00]).
  - vm_compute. split; [discriminate | reflexivity].
  - reflexivity.
Defined.

(** X16. A value of milliseconds that fits 64 bits, given as a Python int,
    as a [c_uint64] or as a [c_ulong], is written by [nla_put_msecs] exactly
    as [nla_put_u64] writes it, in eight bytes of payload, and
    [nla_get_msecs] returns it. *)
Theorem nla_put_get_msecs_roundtrip (msg : nl_msg) (attrtype v : Z)
    (value : msecs_value) :
  0 <= v < 2 ^ 64 ->
  value = MsecsVal (VInt v) \/ value = MsecsVal (VCUInt W64 v)
  \/ value = MsecsULong v ->
  nla_put_msecs msg attrtype value = nla_put_u64 msg attrtype (VInt v)
  /\ exists (nla : nlattr) (log : list log_event),
       nla_put_msecs msg attrtype value
       = Ret (0, payload_append msg (ONlattr nla), log)
       /\ nla_get_msecs nla = Ret v
       /\ nla_len nla = 8.
Proof.
  intros Hv Hvalue.
  assert (nla_put_msecs msg attrtype value
          = Ret (nla_put msg attrtype (PCUInt W64 v))) as Hput.
  { destruct Hvalue as [-> | [-> | ->]]; cbn [nla_put_msecs cbits];
      rewrite ?Z.mod_small by done; reflexivity. }
  split.
  - rewrite Hput. unfold nla_put_u64, nla_put_uint, as_c_uint. cbn [cbits].
    by rewrite Z.mod_small by done.
  - exists (new_nlattr attrtype (PCUInt W64 v)). rewrite Hput. unfold nla_put.
    destruct (payload_not _); eexists; split_and!; reflexivity.
Qed.

Lemma nla_put_get_msecs_roundtrip_witness :
  nla_put_msecs nlmsg_alloc 7 (MsecsULong 1500)
  = nla_put_u64 nlmsg_alloc 7 (VInt 1500)
  /\ exists nla log,
       nla_put_msecs nlmsg_alloc 7 (MsecsULong 1500)
       = Ret (0, payload_append nlmsg_alloc (ONlattr nla), log)
       /\ nla_get_msecs nla = Ret 1500
       /\ nla_len nla = 8.
Proof.
  apply (nla_put_get_msecs_roundtrip nlmsg_alloc 7 1500 (MsecsULong 1500)).
  - lia.
  - right. right. reflexivity.
Defined.

Lemma nla_get_flag_find (attrs : list pyobj) (t : Z) :
  nla_get_flag (nla_find attrs t) = true
  <-> of_type t (nla_for_each_attr attrs) <> [].
Proof.
  unfold nla_find. rewrite nla_find_loop_head.
  by destruct (of_type t (nla_for_each_attr attrs)).
Qed.

(** X17. A flag is read as set exactly when the message has an attribute
    of its type. [nla_put_flag] returns 0, logs nothing and appends an
    attribute with no payload (its length is 0); after it the flag of that
    type is set, and every other flag reads as it did before. *)
Theorem nla_put_get_flag (msg : nl_msg) (t : Z) :
  0 <= t < 2 ^ 14 ->
  exists nla : nlattr,
    nla_put_flag msg t = (0, payload_append msg (ONlattr nla), [])
    /\ nla_len nla = 0
    /\ nla_get_flag (nla_find (nlmsghdr.payload
                                 (nm_nlh (payload_append msg (ONlattr nla)))) t)
       = true
    /\ (forall t', t' <> t ->
          nla_get_flag (nla_find (nlmsghdr.payload
                                    (nm_nlh (payload_append msg (ONlattr nla)))) t')
          = nla_get_flag (nla_find (nlmsghdr.payload (nm_nlh msg)) t')).
Proof.
  intros Ht. exists (new_nlattr t PNone).
  assert (nla_type (new_nlattr t PNone) = t) as Hty by (by apply nla_type_code).
  split_and!; [reflexivity | reflexivity | |].
  - apply nla_get_flag_find.
    fold (msg_attrs (payload_append msg (ONlattr (new_nlattr t PNone)))).
    rewrite msg_attrs_append, of_type_app, of_type_cons.
    apply Z.eqb_eq in Hty. rewrite Hty.
    intros Hnil. by apply app_eq_nil in Hnil as [_ ?].
  - intros t' Hne. unfold nla_find. rewrite !nla_find_loop_head.
    fold (msg_attrs (payload_append msg (ONlattr (new_nlattr t PNone)))).
    fold (msg_attrs msg).
    rewrite msg_attrs_append, of_type_app, of_type_cons, Hty.
    destruct (Z.eqb_spec t t'); [congruence|].
    cbn [of_type List.filter]. by rewrite app_nil_r.
Qed.

Lemma nla_put_get_flag_witness :
  exists nla,
    nla_put_flag nlmsg_alloc 6 = (0, payload_append nlmsg_alloc (ONlattr nla), [])
    /\ nla_len nla = 0
    /\ nla_get_flag (nla_find (nlmsghdr.payload
                                 (nm_nlh (payload_append nlmsg_alloc (ONlattr nla)))) 6)
       = true
    /\ (forall t', t' <> 6 ->
          nla_get_flag (nla_find (nlmsghdr.payload
                                    (nm_nlh (payload_append nlmsg_alloc (ONlattr nla)))) t')
          = nla_get_flag (nla_find (nlmsghdr.payload (nm_nlh nlmsg_alloc)) t')).
Proof.
  apply (nla_put_get_flag nlmsg_alloc 6). vm_compute.
  split; [discriminate | reflexivity].
Defined.

(** * Further properties of genl/ctrl.py *)

(** Every way through [probe_response]: the parse raises, or it returns a
    value other than 0 and the reply is skipped, or it returns 0 and one of
    the two subscripts of the table, the decoding of the family id or the
    parsing of the multicast groups raises. *)
Lemma probe_response_outcome (msg : nl_msg) (family : genl_family) :
  (exists rc,
     p_result (genlmsg_parse (nlmsg_hdr msg) 0 ∅ CTRL_ATTR_MAX (Some ctrl_policy))
     = Ret rc
     /\ rc <> 0
     /\ probe_response msg family = (Ret NL_SKIP, family))
  \/ (exists e family', probe_response msg family = (Raise e, family')).
Proof.
  unfold probe_response. cbv zeta.
  destruct (p_result (genlmsg_parse (nlmsg_hdr msg) 0 ∅ CTRL_ATTR_MAX
                        (Some ctrl_policy))) as [rc|e] eqn:Hparse.
  2:{ right. by eexists _, _. }
  destruct (Z.eqb_spec rc 0) as [->|Hrc].
  2:{ left. exists rc. split_and!; [done | done |].
      unfold lift, mbind, handler_bind.
      by destruct (Z.eqb_spec rc 0). }
  right. unfold lift, mbind, handler_bind, dict_getitem, nlattr_bool,
           parse_mcast_grps, genl_family_set_id, lift.
  cbn [Z.eqb negb].
  destruct (p_tb _ !! CTRL_ATTR_FAMILY_ID) as [a|]; [|by eexists _, _].
  destruct (nla_get_u16 a) as [v|e]; [|by eexists _, _].
  destruct (p_tb _ !! CTRL_ATTR_MCAST_GROUPS) as [g|]; by eexists _, _.
Qed.

(** X18. [probe_response] returns without raising only when the attributes
    of the reply fail to parse; it then answers Skip and leaves the
    descriptor alone. It never answers Stop: once the parse succeeds, every
    way through the function ends in an exception. *)
Theorem probe_response_only_skips (msg : nl_msg) (family family' : genl_family)
    (r : Z) :
  probe_response msg family = (Ret r, family') ->
  r = NL_SKIP /\ family' = family
  /\ exists rc,
       p_result (genlmsg_parse (nlmsg_hdr msg) 0 ∅ CTRL_ATTR_MAX (Some ctrl_policy))
       = Ret rc /\ rc <> 0.
Proof.
  intros Hret.
  destruct (probe_response_outcome msg family)
    as [(rc & Hparse & Hrc & Hskip) | (e & fam & Hraise)].
  - rewrite Hskip in Hret. injection Hret as <- <-. eauto.
  - rewrite Hraise in Hret. discriminate.
Qed.

(** X18 at a reply whose version attribute is too short. *)
Lemma probe_response_only_skips_witness :
  let reply := mk_nl_msg (nlmsghdr.mk
                 [OOther; ONlattr (new_nlattr CTRL_ATTR_VERSION (PBytes [x01; x00]))]) in
  probe_response reply genl_family_alloc = (Ret NL_SKIP, genl_family_alloc)
  /\ NL_SKIP = NL_SKIP /\ genl_family_alloc = genl_family_alloc
  /\ exists rc,
       p_result (genlmsg_parse (nlmsg_hdr reply) 0 ∅ CTRL_ATTR_MAX
                   (Some ctrl_policy)) = Ret rc /\ rc <> 0.
Proof.
  intros reply.
  assert (probe_response reply genl_family_alloc = (Ret NL_SKIP, genl_family_alloc))
    as Hret by reflexivity.
  split; [exact Hret|].
  exact (probe_response_only_skips reply genl_family_alloc genl_family_alloc
           NL_SKIP Hret).
Defined.

Lemma receive_until_returns (replies : list nl_msg) (rc r : Z)
    (family family' : genl_family) :
  receive_until probe_response replies rc family = (Ret r, family') ->
  r = rc /\ family' = family.
Proof.
  induction replies as [|msg replies IH]; cbn [receive_until].
  { intros [= <- <-]. done. }
  unfold mbind at 1, handler_bind at 1.
  destruct (probe_response_outcome msg family)
    as [(rc' & _ & _ & ->) | (e & fam & ->)]; [|done].
  change (NL_SKIP =? NL_STOP) with false. cbv iota. apply IH.
Qed.

(** X19. [genl_ctrl_resolve] never returns a family id, and
    [genl_ctrl_probe_by_name] never returns a descriptor: whatever the
    transport answers, the probe returns [None] or raises, and the
    resolution returns the not-found error or raises, because the handler
    cannot store an id and return. *)
Theorem genl_ctrl_resolve_never_resolves (sk : nl_sock) (name : list byte) :
  (genl_ctrl_probe_by_name sk name = Ret None
   \/ exists e, genl_ctrl_probe_by_name sk name = Raise e)
  /\ (genl_ctrl_resolve sk name = Ret (- NLE_OBJ_NOTFOUND)
      \/ exists e, genl_ctrl_resolve sk name = Raise e).
Proof.
  assert (genl_ctrl_probe_by_name sk name = Ret None
          \/ exists e, genl_ctrl_probe_by_name sk name = Raise e) as Hprobe.
  { unfold genl_ctrl_probe_by_name. cbv zeta.
    destruct (nl_send_auto sk _ <? 0); [by left|].
    unfold nl_recvmsgs.
    destruct (receive_until probe_response (sk_replies sk) (sk_recv sk) _)
      as [[rc|e] ret] eqn:Hrecv; [|right; by exists e].
    apply receive_until_returns in Hrecv as [-> ->].
    destruct (sk_recv sk <? 0); [by left|].
    destruct (wait_for_ack sk <? 0); by left. }
  split; [exact Hprobe|].
  unfold genl_ctrl_resolve. destruct Hprobe as [-> | [e ->]].
  - by left.
  - right. by exists e.
Qed.

(** X20. When the send fails, the handler is never run: the resolution
    returns the not-found error whatever the replies are, and the error the
    transport reported is not what the caller gets. *)
Theorem genl_ctrl_resolve_send_failure (sk : nl_sock) (name : list byte) :
  (forall request, sk_send sk request < 0) ->
  genl_ctrl_probe_by_name sk name = Ret None
  /\ genl_ctrl_resolve sk name = Ret (- NLE_OBJ_NOTFOUND).
Proof.
  intros Hsend.
  assert (genl_ctrl_probe_by_name sk name = Ret None) as Hprobe.
  { unfold genl_ctrl_probe_by_name, nl_send_auto. cbv zeta.
    by replace (sk_send sk _ <? 0) with true
      by (symmetry; apply Z.ltb_lt; apply Hsend). }
  split; [exact Hprobe|]. unfold genl_ctrl_resolve. by rewrite Hprobe.
Qed.

Lemma genl_ctrl_resolve_send_failure_witness :
  let reply := (nla_put_string (genlmsg_put nlmsg_alloc) CTRL_ATTR_FAMILY_NAME
                  [x6e; x6c]).1.2 in
  genl_ctrl_probe_by_name (mk_nl_sock (λ _, -5) [reply] 0 0) [x6e; x6c] = Ret None
  /\ genl_ctrl_resolve (mk_nl_sock (λ _, -5) [reply] 0 0) [x6e; x6c]
     = Ret (- NLE_OBJ_NOTFOUND).
Proof.
  intros reply.
  apply (genl_ctrl_resolve_send_failure (mk_nl_sock (λ _, -5) [reply] 0 0)).
  intros request. simpl. lia.
Defined.

(** X21. When every reply fails to parse, each one is skipped, the receive
    loop goes through all of them, and the resolution returns the not-found
    error, whatever the transport says of the send, of the receive and of
    the acknowledgment. *)
Theorem genl_ctrl_resolve_replies_rejected (sk : nl_sock) (name : list byte) :
  Forall (λ msg, exists rc,
            p_result (genlmsg_parse (nlmsg_hdr msg) 0 ∅ CTRL_ATTR_MAX
                        (Some ctrl_policy)) = Ret rc /\ rc <> 0)
         (sk_replies sk) ->
  genl_ctrl_resolve sk name = Ret (- NLE_OBJ_NOTFOUND).
Proof.
  intros Hrejected. apply genl_ctrl_resolve_not_found.
  eapply Forall_impl; [exact Hrejected|].
  intros msg (rc & Hparse & Hrc). simpl.
  by apply (probe_response_parse_failure msg _ rc).
Qed.

Lemma genl_ctrl_resolve_replies_rejected_witness :
  let reply := mk_nl_msg (nlmsghdr.mk
                 [OOther; ONlattr (new_nlattr CTRL_ATTR_VERSION (PBytes [x01; x00]))]) in
  genl_ctrl_resolve (mk_nl_sock (λ _, 0) [reply; reply] 0 0) [x6e; x6c]
  = Ret (- NLE_OBJ_NOTFOUND).
Proof.
  intros reply.
  apply (genl_ctrl_resolve_replies_rejected
           (mk_nl_sock (λ _, 0) [reply; reply] 0 0)).
  repeat constructor; exists (- NLE_RANGE); (split; [reflexivity | discriminate]).
Defined.

(** X22. When a reply parses and carries a family id that decodes to [v],
    the handler stores [v] in the descriptor and then raises all the same:
    KeyError where it subscripts the table for the multicast groups when
    the reply has none, NotImplementedError from their parser when it has
    some. The descriptor keeps the id it was given. *)
Theorem probe_response_stores_id_then_raises (msg : nl_msg)
    (family : genl_family) (a : nlattr) (v : Z) :
  p_result (genlmsg_parse (nlmsg_hdr msg) 0 ∅ CTRL_ATTR_MAX (Some ctrl_policy))
  = Ret 0 ->
  p_tb (genlmsg_parse (nlmsg_hdr msg) 0 ∅ CTRL_ATTR_MAX (Some ctrl_policy))
    !! CTRL_ATTR_FAMILY_ID = Some a ->
  nla_get_u16 a = Ret v ->
  probe_response msg family
  = (Raise match p_tb (genlmsg_parse (nlmsg_hdr msg) 0 ∅ CTRL_ATTR_MAX
                         (Some ctrl_policy)) !! CTRL_ATTR_MCAST_GROUPS with
           | Some _ => NotImplementedError
           | None => KeyError
           end,
     mk_genl_family v (f_name family)).
Proof.
  intros Hparse Hid Hget. unfold probe_response. cbv zeta. rewrite Hparse.
  unfold lift, mbind, handler_bind, dict_getitem, nlattr_bool,
    parse_mcast_grps, genl_family_set_id, lift.
  cbn [Z.eqb negb]. rewrite Hid, Hget.
  by destruct (p_tb _ !! CTRL_ATTR_MCAST_GROUPS).
Qed.

(** X22 at the reply to a request for the family nlctrl: id 16 and the
    name. The handler stores 16 and raises KeyError, and so does the
    resolution. *)
Lemma probe_response_stores_id_then_raises_witness :
  let reply := genlmsg_put nlmsg_alloc in
  let reply := (nla_put reply CTRL_ATTR_FAMILY_ID (PCUInt W16 16)).1.2 in
  let reply := (nla_put_string reply CTRL_ATTR_FAMILY_NAME
                  [x6e; x6c; x63; x74; x72; x6c]).1.2 in
  probe_response reply (mk_genl_family 0 [x6e; x6c; x63; x74; x72; x6c])
  = (Raise KeyError, mk_genl_family 16 [x6e; x6c; x63; x74; x72; x6c]).
Proof.
  intros reply0 reply1 reply.
  exact (probe_response_stores_id_then_raises reply
           (mk_genl_family 0 [x6e; x6c; x63; x74; x72; x6c])
           (new_nlattr CTRL_ATTR_FAMILY_ID (PCUInt W16 16)) 16
           eq_refl eq_refl eq_refl).
Defined.

Lemma validate_nla_checked_raises (nla : nlattr) (maxtype : Z)
    (policy : gmap Z nla_policy) (pt : nla_policy) (e : exn) :
  0 <= nla_type nla <= maxtype ->
  policy !! nla_type nla = Some pt ->
  0 <= nla_policy.type_ pt <= NLA_TYPE_MAX ->
  validate_nla nla maxtype policy = Raise e ->
  e = TypeError \/ e = IndexError.
Proof.
  intros Hty Hpt Hdecl.
  rewrite (validate_nla_checks nla maxtype policy pt) by done.
  unfold payload_getitem, bytes_getitem, mbind, pyres_bind.
  intros He. repeat case_match; simplify_eq; auto.
Qed.

(** X23. Under the control policy, with the control maximum, the
    validation of an attribute never raises BUG, and it raises KeyError
    exactly for the type code 0, the one code up to the maximum that the
    policy has no entry for. *)
Theorem validate_nla_ctrl_policy (nla : nlattr) :
  0 <= nla_type nla <= CTRL_ATTR_MAX ->
  (validate_nla nla CTRL_ATTR_MAX ctrl_policy = Raise KeyError
   <-> nla_type nla = CTRL_ATTR_UNSPEC)
  /\ validate_nla nla CTRL_ATTR_MAX ctrl_policy <> Raise BUG.
Proof.
  intros Hty.
  assert (nla_type nla = 0 \/ nla_type nla = 1 \/ nla_type nla = 2
          \/ nla_type nla = 3 \/ nla_type nla = 4 \/ nla_type nla = 5
          \/ nla_type nla = 6 \/ nla_type nla = 7) as Hcases
    by (unfold CTRL_ATTR_MAX, CTRL_ATTR_MCAST_GROUPS in Hty; lia).
  destruct Hcases as [Hzero|Hentry].
  - assert (ctrl_policy !! nla_type nla = None) as Hnone
      by (rewrite Hzero; reflexivity).
    assert (validate_nla nla CTRL_ATTR_MAX ctrl_policy = Raise KeyError) as Hkey.
    { unfold validate_nla. cbv zeta.
      replace (nla_type nla <? 0) with false by (symmetry; apply Z.ltb_ge; lia).
      replace (nla_type nla >? CTRL_ATTR_MAX) with false
        by (symmetry; rewrite Z.gtb_ltb; apply Z.ltb_ge; lia).
      cbn [orb]. by rewrite (dict_getitem_None _ _ Hnone). }
    rewrite Hkey. split; [done | discriminate].
  - assert (exists pt, ctrl_policy !! nla_type nla = Some pt
                       /\ 0 <= nla_policy.type_ pt <= NLA_TYPE_MAX)
      as (pt & Hpt & Hdecl).
    { destruct_or!; rewrite Hentry; eexists; (split; [reflexivity|]);
        vm_compute; split; discriminate. }
    pose proof (validate_nla_checked_raises nla CTRL_ATTR_MAX ctrl_policy pt)
      as Hraise.
    split; [split|].
    + intros Hkey. destruct (Hraise KeyError Hty Hpt Hdecl Hkey); discriminate.
    + unfold CTRL_ATTR_UNSPEC. intros Hzero. destruct_or!; lia.
    + intros Hbug. destruct (Hraise BUG Hty Hpt Hdecl Hbug); discriminate.
Qed.

Lemma validate_nla_ctrl_policy_witness :
  let nla := new_nlattr CTRL_ATTR_OPS (PBytes []) in
  (validate_nla nla CTRL_ATTR_MAX ctrl_policy = Raise KeyError
   <-> nla_type nla = CTRL_ATTR_UNSPEC)
  /\ validate_nla nla CTRL_ATTR_MAX ctrl_policy <> Raise BUG.
Proof.
  intros nla. apply (validate_nla_ctrl_policy nla).
  vm_compute. split; discriminate.
Defined.

(** * Parsing the same stream again *)

Lemma nla_parse_loop_result_any_table (tb tb' : gmap Z nlattr)
    (log log' : list log_event) (maxtype : Z) (attrs : list nlattr)
    (policy : option (gmap Z nla_policy)) :
  p_result (nla_parse_loop tb log maxtype attrs policy)
  = p_result (nla_parse_loop tb' log' maxtype attrs policy).
Proof.
  revert tb tb' log log'.
  induction attrs as [|nla attrs IH]; intros tb tb' log log'; [done|].
  cbn [nla_parse_loop].
  destruct (nla_type nla >? maxtype); [apply IH|].
  destruct (match policy_given policy with
            | Some p => validate_nla nla maxtype p
            | None => Ret 0
            end) as [err|e]; [|done].
  destruct (err <? 0); [done | apply IH].
Qed.

(** X24. What [nla_parse] returns does not depend on the table it is handed
    (validation never looks at the table), and parsing a stream that parsed
    to the end once more into the table it left changes nothing in the
    table. *)
Theorem nla_parse_again (tb : gmap Z nlattr) (maxtype : Z)
    (stream : list pyobj) (policy : option (gmap Z nla_policy)) :
  (forall tb', p_result (nla_parse tb' maxtype stream policy)
               = p_result (nla_parse tb maxtype stream policy))
  /\ (p_result (nla_parse tb maxtype stream policy) = Ret 0 ->
      p_tb (nla_parse (p_tb (nla_parse tb maxtype stream policy)) maxtype
              stream policy)
      = p_tb (nla_parse tb maxtype stream policy)).
Proof.
  split.
  - intros tb'. apply nla_parse_loop_result_any_table.
  - intros Hdone.
    assert (p_result (nla_parse (p_tb (nla_parse tb maxtype stream policy))
                        maxtype stream policy) = Ret 0) as Hagain
      by (rewrite <- Hdone; apply nla_parse_loop_result_any_table).
    apply map_eq. intros t.
    destruct (Z.le_gt_cases t maxtype) as [Hle|Hgt].
    + unfold nla_parse in *.
      rewrite (nla_parse_loop_table _ _ _ _ _ _ Hagain Hle).
      destruct (last (of_type t (nla_for_each_attr stream))) eqn:Hlast; [|done].
      by rewrite (nla_parse_loop_table _ _ _ _ _ _ Hdone Hle), Hlast.
    + unfold nla_parse. by apply nla_parse_loop_provenance.
Qed.

Lemma nla_parse_again_witness :
  let stream := [ONlattr (new_nlattr 3 (PCUInt W32 1));
                 ONlattr (new_nlattr 3 (PCUInt W32 2))] in
  p_tb (nla_parse (p_tb (nla_parse ∅ 7 stream None)) 7 stream None)
  = p_tb (nla_parse ∅ 7 stream None).
Proof.
  intros stream.
  destruct (nla_parse_again ∅ 7 stream None) as [_ Hagain].
  apply Hagain. reflexivity.
Defined.
